(* Shallow embedding of the xyflow core container code
   (src/packages/core/src/index.ts): the node wrapper, the two ReactFlow
   containers (the original one and the rewritten one) with their event
   dispatch helpers, and the parts of the store that the
   spec describes but that are not part of src/. *)

From stdpp Require Import base gmap strings list.
From Stdlib Require Import QArith Qminmax Lqa.

(* ===================================================================== *)
(* DOM elements and event dispatch                                        *)
(* ===================================================================== *)

(** An element as the dispatch helpers read it: its identity (what [===]
    compares) and the [dataset] entries [data-eltype], [data-nodedata] and
    [data-edgedata] ([None] when the attribute is absent). *)
Record HTMLElement := {
  el_ref : nat;
  eltype : option string;
  nodedata : option string;
  edgedata : option string
}.

(** An element together with its [parentElement] chain:
    [node :: parent :: grandparent :: ...]; the last element of the list
    has [parentElement = null]. *)
Definition ElementChain := list HTMLElement.

(** A mouse event: [target] (with its ancestors) and [currentTarget], the
    element the React handler is attached to. *)
Record MouseEvent := {
  target : ElementChain;
  currentTarget : HTMLElement
}.

(** A callback prop ([NodeMouseHandler | undefined]) is identified by the
    reference of the function object; invoking it is an observable effect. *)
Definition HandlerRef := nat.

(** JavaScript truthiness of an optional string attribute: [undefined] and
    [""] are falsy. *)
Definition truthy (s : option string) : bool :=
  match s with
  | Some v => negb (String.eqb v "")
  | None => false
  end.

(** [elType == 'node'] for an attribute that may be [undefined]. *)
Definition is_eltype (v : option string) (s : string) : bool :=
  match v with
  | Some x => String.eqb x s
  | None => false
  end.

(** [node.parentElement === listeningEl]: identity of elements. *)
Definition same_element (a b : HTMLElement) : bool :=
  Nat.eqb (el_ref a) (el_ref b).

Definition is_defined {A} (o : option A) : bool :=
  match o with Some _ => true | None => false end.

Section Dispatch.

(** The records carried in [data-nodedata] / [data-edgedata] and
    [JSON.parse] on them; [rec_id] reads the [id] field of a parsed node
    or edge. *)
Variable Rec : Type.
Variable JSON_parse : string -> Rec.
Variable rec_id : Rec -> string.

(** Values written by the [console.log] calls of the original container. *)
Inductive ConsoleValue :=
| LogElType (v : option string)
| LogParentElement (p : option HTMLElement)
| LogData (d : option HTMLElement)
| LogNode (r : Rec)
| LogEdge (r : Rec).

(** Observable effects of a handler: console output and callback calls. *)
Inductive Effect :=
| Console (v : ConsoleValue)
| CallNodeHandler (h : HandlerRef) (node : Rec)
| CallEdgeHandler (h : HandlerRef) (edge : Rec)
| CallHandlerNull (h : HandlerRef).

(** [if (attr) { const x = JSON.parse(attr); k(x) }]. *)
Definition with_truthy (attr : option string) (k : string -> list Effect) : list Effect :=
  match attr with
  | Some v => if negb (String.eqb v "") then k v else []
  | None => []
  end.

(** The rewritten container's [findNodeOrEdge]. *)
Fixpoint findNodeOrEdge (node : ElementChain) (listeningEl : HTMLElement)
  : option HTMLElement :=
  match node with
  | [] => None
  | n :: parents =>
      if truthy (eltype n) then Some n
      else match parents with
           | [] => None
           | p :: _ =>
               if same_element p listeningEl then None
               else findNodeOrEdge parents listeningEl
           end
  end.

(** The original container's [findNodeOrEdge], with its two
    [console.log] calls. *)
Fixpoint findNodeOrEdge_old (node : ElementChain) (listeningEl : HTMLElement)
  : option HTMLElement * list ConsoleValue :=
  match node with
  | [] => (None, [])
  | n :: parents =>
      let log1 := LogElType (eltype n) in
      if truthy (eltype n) then (Some n, [log1])
      else
        let log2 := LogParentElement (head parents) in
        match parents with
        | [] => (None, [log1; log2])
        | p :: _ =>
            if same_element p listeningEl then (None, [log1; log2])
            else
              let '(r, logs) := findNodeOrEdge_old parents listeningEl in
              (r, log1 :: log2 :: logs)
        end
  end.

(** The rewritten container's [eventHandlersDecorator nodeCallback
    edgeCallback] applied to an event. *)
Definition eventHandlersDecorator (nodeCallback edgeCallback : option HandlerRef)
    (event : MouseEvent) : list Effect :=
  if negb (is_defined nodeCallback) && negb (is_defined edgeCallback) then []
  else
    match findNodeOrEdge (target event) (currentTarget event) with
    | None => []
    | Some data =>
        let elType := eltype data in
        match is_eltype elType "node", nodeCallback with
        | true, Some cb =>
            with_truthy (nodedata data) (fun s => [CallNodeHandler cb (JSON_parse s)])
        | _, _ =>
            match is_eltype elType "edge", edgeCallback with
            | true, Some cb =>
                with_truthy (edgedata data) (fun s => [CallEdgeHandler cb (JSON_parse s)])
            | _, _ => []
            end
        end
    end.

(** The original container's [eventHandlersDecorator], logging the
    search, the element found and the parsed record. *)
Definition eventHandlersDecorator_old (nodeCallback edgeCallback : option HandlerRef)
    (event : MouseEvent) : list Effect :=
  if negb (is_defined nodeCallback) && negb (is_defined edgeCallback) then []
  else
    let '(found, logs) := findNodeOrEdge_old (target event) (currentTarget event) in
    map Console logs ++ Console (LogData found) ::
    match found with
    | None => []
    | Some data =>
        let elType := eltype data in
        match is_eltype elType "node", nodeCallback with
        | true, Some cb =>
            with_truthy (nodedata data)
              (fun s => [Console (LogNode (JSON_parse s)); CallNodeHandler cb (JSON_parse s)])
        | _, _ =>
            match is_eltype elType "edge", edgeCallback with
            | true, Some cb =>
                with_truthy (edgedata data)
                  (fun s => [Console (LogEdge (JSON_parse s)); CallEdgeHandler cb (JSON_parse s)])
            | _, _ => []
            end
        end
    end.

(** The callback calls of an effect trace, console output dropped. *)
Definition callbacks (es : list Effect) : list Effect :=
  List.filter (fun e => match e with Console _ => false | _ => true end) es.

(** The longest prefix of a list whose elements all satisfy [f]. *)
Fixpoint ancestors_until (f : HTMLElement -> bool) (l : ElementChain) : ElementChain :=
  match l with
  | [] => []
  | x :: r => if f x then x :: ancestors_until f r else []
  end.

(** C2, stated after the spec's words: the nearest element, among the
    given element and its ancestors, annotated with an element type. *)
Definition nearest_annotated (chain : ElementChain) : option HTMLElement :=
  List.find (fun e => truthy (eltype e)) chain.

(** C2, stated after the spec's words: the callback call expected for the
    annotated element found, if any: the node callback for a ['node']
    element with serialized node data, the edge callback for an ['edge']
    element with serialized edge data, nothing otherwise. *)
Definition expected_dispatch (nodeCallback edgeCallback : option HandlerRef)
    (found : option HTMLElement) : list Effect :=
  match found with
  | None => []
  | Some e =>
      if is_eltype (eltype e) "node" then
        match nodeCallback with
        | Some cb => with_truthy (nodedata e) (fun s => [CallNodeHandler cb (JSON_parse s)])
        | None => []
        end
      else if is_eltype (eltype e) "edge" then
        match edgeCallback with
        | Some cb => with_truthy (edgedata e) (fun s => [CallEdgeHandler cb (JSON_parse s)])
        | None => []
        end
      else []
  end.

(** The elements [findNodeOrEdge] walks through: the target, then its
    ancestors up to (excluding) the first one that is the listening
    element. *)
Definition searched_chain (chain : ElementChain) (listeningEl : HTMLElement) : ElementChain :=
  match chain with
  | [] => []
  | n :: parents => n :: ancestors_until (fun e => negb (same_element e listeningEl)) parents
  end.

(* --------------------------------------------------------------------- *)
(* Hover tracking of the rewritten container                              *)
(* --------------------------------------------------------------------- *)

(** [currentHovered: { elType: null | string; el: null | Node | Edge }]. *)
Record Hovered := {
  hov_elType : option string;
  hov_el : option Rec
}.

Definition noHovered : Hovered := {| hov_elType := None; hov_el := None |}.

(** A closure returned by [hoverEventHandlersDecorator]: the
    [currentHovered] value of the render that built it and the four
    callbacks it was given. *)
Record HoverClosure := {
  captured : Hovered;
  nodeEnterCallback : option HandlerRef;
  edgeEnterCallback : option HandlerRef;
  nodeLeaveCallback : option HandlerRef;
  edgeLeaveCallback : option HandlerRef
}.

(** A leave callback called with [currentHovered.el as Node] (or [as
    Edge]), which may be [null]. *)
Definition call_node_leave (cb : HandlerRef) (el : option Rec) : list Effect :=
  match el with Some r => [CallNodeHandler cb r] | None => [CallHandlerNull cb] end.

Definition call_edge_leave (cb : HandlerRef) (el : option Rec) : list Effect :=
  match el with Some r => [CallEdgeHandler cb r] | None => [CallHandlerNull cb] end.

(** The handler [decoratedEventHandler] of [hoverEventHandlersDecorator]:
    the callbacks it calls, in order, and the last value it passes to
    [setCurrentHovered] ([None] when it does not call it). *)
Definition hoverHandler (c : HoverClosure) (event : MouseEvent)
  : list Effect * option Hovered :=
  let currentHovered := captured c in
  if negb (is_defined (nodeEnterCallback c)) && negb (is_defined (edgeEnterCallback c))
  then ([], None)
  else
    match findNodeOrEdge (target event) (currentTarget event) with
    | None =>
        match edgeLeaveCallback c, is_eltype (hov_elType currentHovered) "edge" with
        | Some cb, true => (call_edge_leave cb (hov_el currentHovered), Some noHovered)
        | _, _ =>
            match nodeLeaveCallback c, is_eltype (hov_elType currentHovered) "node" with
            | Some cb, true => (call_node_leave cb (hov_el currentHovered), Some noHovered)
            | _, _ => ([], None)
            end
        end
    | Some data =>
        let elType := eltype data in
        match is_eltype elType "node", nodeEnterCallback c with
        | true, Some enter =>
            match nodedata data with
            | Some v =>
                if String.eqb v "" then ([], None) else
                let node := JSON_parse v in
                let leave :=
                  match negb (is_eltype (hov_elType currentHovered) "node"),
                        edgeLeaveCallback c, hov_el currentHovered with
                  | true, Some cb, Some prev => [CallEdgeHandler cb prev]
                  | _, _, _ =>
                      match hov_el currentHovered, nodeLeaveCallback c with
                      | Some prev, Some cb =>
                          if negb (String.eqb (rec_id node) (rec_id prev))
                          then [CallNodeHandler cb prev] else []
                      | _, _ => []
                      end
                  end in
                (leave ++ [CallNodeHandler enter node],
                 Some {| hov_elType := elType; hov_el := Some node |})
            | None => ([], None)
            end
        | _, _ =>
            match is_eltype elType "edge", edgeEnterCallback c with
            | true, Some enter =>
                match edgedata data with
                | Some v =>
                    if String.eqb v "" then ([], None) else
                    let edge := JSON_parse v in
                    let leave :=
                      match hov_el currentHovered,
                            negb (is_eltype (hov_elType currentHovered) "edge"),
                            nodeLeaveCallback c with
                      | Some prev, true, Some cb => [CallNodeHandler cb prev]
                      | _, _, _ =>
                          match hov_el currentHovered, edgeLeaveCallback c with
                          | Some prev, Some cb =>
                              if negb (String.eqb (rec_id edge) (rec_id prev))
                              then [CallEdgeHandler cb prev] else []
                          | _, _ => []
                          end
                      end in
                    (leave ++ [CallEdgeHandler enter edge],
                     Some {| hov_elType := elType; hov_el := Some edge |})
                | None => ([], None)
                end
            | _, _ => ([], None)
            end
        end
    end.

(** The hover callbacks given as props to the container. *)
Record HoverProps := {
  onNodeMouseEnter : option HandlerRef;
  onEdgeMouseEnter : option HandlerRef;
  onNodeMouseLeave : option HandlerRef;
  onEdgeMouseLeave : option HandlerRef
}.

(** The component state that matters for hovering: the React state
    [currentHovered] and the [useCallback] cache of [onElMouseEnter]
    (its dependency list and the cached closure). *)
Record FlowState := {
  currentHovered : Hovered;
  onElMouseEnter_memo : option ((option HandlerRef * option HandlerRef) * HoverClosure)
}.

(** [Object.is] on callback references (or [undefined]). *)
Definition same_ref (a b : option HandlerRef) : bool :=
  match a, b with
  | Some x, Some y => Nat.eqb x y
  | None, None => true
  | _, _ => false
  end.

(** One render: [hoverEventHandlersDecorator(...)] is rebuilt over the
    current [currentHovered], and [useCallback(...,
    [onNodeMouseEnter, onEdgeMouseEnter])] returns the cached closure
    unless one of these two dependencies changed. *)
Definition render (p : HoverProps) (s : FlowState) : FlowState :=
  let fresh := {| captured := currentHovered s;
                  nodeEnterCallback := onNodeMouseEnter p;
                  edgeEnterCallback := onEdgeMouseEnter p;
                  nodeLeaveCallback := onNodeMouseLeave p;
                  edgeLeaveCallback := onEdgeMouseLeave p |} in
  let deps := (onNodeMouseEnter p, onEdgeMouseEnter p) in
  match onElMouseEnter_memo s with
  | Some ((d1, d2), _) =>
      if same_ref d1 (fst deps) && same_ref d2 (snd deps) then s
      else {| currentHovered := currentHovered s; onElMouseEnter_memo := Some (deps, fresh) |}
  | None => {| currentHovered := currentHovered s; onElMouseEnter_memo := Some (deps, fresh) |}
  end.

(** First render of the container: [useState({ elType: null, el: null })]. *)
Definition mount (p : HoverProps) : FlowState :=
  render p {| currentHovered := noHovered; onElMouseEnter_memo := None |}.

(** A [mouseover] event reaching the wrapper's [onMouseOver]
    ([onElMouseEnter]): the rendered closure runs, the state update is
    committed and the component renders again with the same props. *)
Definition dispatch_mouseover (p : HoverProps) (s : FlowState) (ev : MouseEvent)
  : list Effect * FlowState :=
  match onElMouseEnter_memo s with
  | None => ([], s)
  | Some (_, c) =>
      let '(es, upd) := hoverHandler c ev in
      let s' := match upd with
                | Some h => {| currentHovered := h; onElMouseEnter_memo := onElMouseEnter_memo s |}
                | None => s
                end in
      (es, render p s')
  end.

Fixpoint run_mouseovers (p : HoverProps) (s : FlowState) (evs : list MouseEvent)
  : list Effect * FlowState :=
  match evs with
  | [] => ([], s)
  | ev :: rest =>
      let '(es1, s1) := dispatch_mouseover p s ev in
      let '(es2, s2) := run_mouseovers p s1 rest in
      (es1 ++ es2, s2)
  end.

End Dispatch.

Arguments LogElType {Rec}.
Arguments LogParentElement {Rec}.
Arguments LogData {Rec}.
Arguments Console {Rec}.
Arguments CallNodeHandler {Rec}.
Arguments CallEdgeHandler {Rec}.
Arguments findNodeOrEdge_old {Rec}.
Arguments eventHandlersDecorator {Rec}.
Arguments eventHandlersDecorator_old {Rec}.
Arguments callbacks {Rec}.
Arguments with_truthy {Rec}.
Arguments CallHandlerNull {Rec}.
Arguments nearest_annotated : clear implicits.
Arguments expected_dispatch {Rec}.
Arguments Hovered : clear implicits.
Arguments noHovered {Rec}.
Arguments hoverHandler {Rec}.
Arguments render {Rec}.
Arguments mount {Rec}.
Arguments dispatch_mouseover {Rec}.
Arguments run_mouseovers {Rec}.
Arguments currentHovered {Rec}.
Arguments onElMouseEnter_memo {Rec}.
Arguments captured {Rec}.
Arguments hov_elType {Rec}.
Arguments hov_el {Rec}.
Arguments nodeEnterCallback {Rec}.
Arguments edgeEnterCallback {Rec}.
Arguments nodeLeaveCallback {Rec}.
Arguments edgeLeaveCallback {Rec}.

(* ===================================================================== *)
(* The node wrapper (wrapNode)                                            *)
(* ===================================================================== *)

(** [Position] of a handle. *)
Inductive Position := Left | Top | Right | Bottom.

#[global] Instance Position_eq_dec : EqDecision Position.
Proof. solve_decision. Defined.

(** A keyboard event as [onKeyDown] reads it; [inInputDOMNode] is the
    result of [isInputDOMNode(event)] (focus inside an input element). *)
Record KeyboardEvent := {
  key : string;
  shiftKey : bool;
  inInputDOMNode : bool
}.

(** [arrowKeyDiffs]: [hasOwnProperty] and lookup on the object literal. *)
Definition arrowKeyDiffs (k : string) : option (Q * Q) :=
  if String.eqb k "ArrowUp" then Some (0, -1)
  else if String.eqb k "ArrowDown" then Some (0, 1)
  else if String.eqb k "ArrowLeft" then Some (-1, 0)
  else if String.eqb k "ArrowRight" then Some (1, 0)
  else None.

(** What [onKeyDown] does: [handleNodeClick({ id, store, unselect })],
    [store.setState({ ariaLiveMessage })] (the message is built from the
    key, [~~xPos] and [~~yPos]) and [updatePositions({ x, y,
    isShiftPressed })]. *)
Inductive NodeKeyEffect :=
| HandleNodeClick (id : string) (unselect : bool)
| SetAriaLiveMessage (key : string) (xPos yPos : Q)
| UpdatePositions (x y : Q) (isShiftPressed : bool).

Section NodeWrapper.

(** The type of the node's [data] payload. *)
Variable D : Type.

(** [WrapNodeProps] (the fields the wrapper reads). *)
Record WrapNodeProps := {
  id : string;
  type : string;
  data : D;
  xPos : Q; yPos : Q; xPosOrigin : Q; yPosOrigin : Q;
  selected : bool;
  style : list (string * string);
  className : option string;
  isDraggable : bool; isSelectable : bool; isConnectable : bool; isFocusable : bool;
  sourcePosition : option Position;
  targetPosition : option Position;
  hidden : bool;
  dragHandle : option string;
  zIndex : Q;
  isParent : bool;
  noPanClassName : string;
  initialized : bool;
  disableKeyboardA11y : bool;
  ariaLabel : option string;
  rfId : string
}.

(** The store's internal node, as far as the wrapper passes it on. *)
Record NodeInternal := {
  ni_id : string;
  ni_data : D;
  ni_rest : list (string * string)
}.

(** [ARIA_NODE_DESC_KEY] (from A11yDescriptions, not in src/). *)
Variable ARIA_NODE_DESC_KEY : string.

(** [dataToAttribute(node, 'node')] (from utils, not in src/): the
    serialized node put in [data-nodedata]. *)
Variable dataToAttribute : option NodeInternal -> string -> option string.

(** The props given to the custom [NodeComponent]. *)
Record NodeProps := {
  np_id : string; np_data : D; np_type : string; np_xPos : Q; np_yPos : Q;
  np_selected : bool; np_isConnectable : bool;
  np_sourcePosition : option Position; np_targetPosition : option Position;
  np_dragging : bool; np_dragHandle : option string; np_zIndex : Q
}.

(** The rendered wrapper [div]: its classes (classcat output), style
    entries, attributes, whether [onKeyDown] is attached, and its child. *)
Record NodeDiv := {
  div_className : list string;
  div_zIndex : Q;
  div_transform : Q * Q;
  div_pointerEvents : string;
  div_visibility : string;
  div_userStyle : list (string * string);
  div_data_id : string;
  div_data_testid : string;
  div_onKeyDown : bool;
  div_tabIndex : option Q;
  div_role : option string;
  div_aria_describedby : option string;
  div_aria_label : option string;
  div_data_nodedata : option string;
  div_data_eltype : string;
  div_child : NodeProps
}.

(** [cc([...])]: the class names whose condition holds, in order. *)
Definition nodeClassNames (p : WrapNodeProps) (dragging : bool) : list string :=
  ["react-flow__node"; String.append "react-flow__node-" (type p)] ++
  (if isDraggable p then [noPanClassName p] else []) ++
  (match className p with Some c => if String.eqb c "" then [] else [c] | None => [] end) ++
  (if selected p then ["selected"] else []) ++
  (if isSelectable p then ["selectable"] else []) ++
  (if isParent p then ["parent"] else []) ++
  (if dragging then ["dragging"] else []).

(** The render of [NodeWrapper]; [dragging] is the value returned by
    [useDrag] and [nodeInternals] the store's [nodeInternals.get]. *)
Definition NodeWrapper (p : WrapNodeProps) (dragging : bool)
    (nodeInternals : string -> option NodeInternal) : option NodeDiv :=
  if hidden p then None
  else
    let node := nodeInternals (id p) in
    let nodeDataProps := dataToAttribute node "node" in
    Some {|
      div_className := nodeClassNames p dragging;
      div_zIndex := zIndex p;
      div_transform := (xPosOrigin p, yPosOrigin p);
      div_pointerEvents := if isSelectable p || isDraggable p then "all" else "none";
      div_visibility := if initialized p then "visible" else "hidden";
      div_userStyle := style p;
      div_data_id := id p;
      div_data_testid := String.append "rf__node-" (id p);
      div_onKeyDown := isFocusable p;
      div_tabIndex := if isFocusable p then Some 0 else None;
      div_role := if isFocusable p then Some "button" else None;
      div_aria_describedby :=
        if disableKeyboardA11y p then None else Some (String.append ARIA_NODE_DESC_KEY (String.append "-" (rfId p)));
      div_aria_label := ariaLabel p;
      div_data_nodedata := nodeDataProps;
      div_data_eltype := "node";
      div_child := {|
        np_id := id p; np_data := data p; np_type := type p;
        np_xPos := xPos p; np_yPos := yPos p; np_selected := selected p;
        np_isConnectable := isConnectable p;
        np_sourcePosition := sourcePosition p; np_targetPosition := targetPosition p;
        np_dragging := dragging; np_dragHandle := dragHandle p; np_zIndex := zIndex p |}
    |}.

(** [onKeyDown] of the wrapper; [elementSelectionKeys] is the list
    exported by utils (not in src/). *)
Definition onKeyDown (elementSelectionKeys : list string) (p : WrapNodeProps)
    (event : KeyboardEvent) : list NodeKeyEffect :=
  if inInputDOMNode event then []
  else if existsb (String.eqb (key event)) elementSelectionKeys && isSelectable p then
    [HandleNodeClick (id p) (String.eqb (key event) "Escape")]
  else if negb (disableKeyboardA11y p) && isDraggable p && selected p then
    match arrowKeyDiffs (key event) with
    | Some (dx, dy) =>
        [SetAriaLiveMessage (key event) (xPos p) (yPos p);
         UpdatePositions dx dy (shiftKey event)]
    | None => []
    end
  else [].

(** A key pressed on the rendered node: [onKeyDown] is attached only
    when the node is focusable. *)
Definition keyDownOnNode (elementSelectionKeys : list string) (p : WrapNodeProps)
    (event : KeyboardEvent) : list NodeKeyEffect :=
  if isFocusable p then onKeyDown elementSelectionKeys p event else [].

(** The effect of [useEffect(..., [id, type, sourcePosition,
    targetPosition])]: when the type or a handle position changed since
    the last run, [updateNodeDimensions([{ id, nodeElement, forceUpdate:
    true }])] is called for this node. *)
Definition dimensionsEffect (prevType : string) (prevSource prevTarget : option Position)
    (p : WrapNodeProps) : option string :=
  let typeChanged := negb (String.eqb prevType (type p)) in
  let sameOpt o1 o2 := match o1, o2 with
                       | Some a, Some b => bool_decide (a = b)
                       | None, None => true
                       | _, _ => false
                       end in
  if typeChanged || negb (sameOpt prevSource (sourcePosition p))
     || negb (sameOpt prevTarget (targetPosition p))
  then Some (id p) else None.

End NodeWrapper.

(* ===================================================================== *)
(* Configuration of the ReactFlow container                               *)
(* ===================================================================== *)

Inductive ConnectionMode := Strict | Loose.
Inductive SelectionMode := Full | Partial.

(** A JavaScript number as the extents use it (finite or infinite). *)
Inductive JSNumber := Finite (q : Q) | PosInfinity | NegInfinity.

(** [CoordinateExtent = [[x1, y1], [x2, y2]]]. *)
Definition CoordinateExtent : Type := (JSNumber * JSNumber) * (JSNumber * JSNumber).

(** [infiniteExtent] of store/initialState (not in src/):
    [[-Infinity, -Infinity], [Infinity, Infinity]]. *)
Definition infiniteExtent : CoordinateExtent :=
  ((NegInfinity, NegInfinity), (PosInfinity, PosInfinity)).

Record Viewport := { vp_x : Q; vp_y : Q; vp_zoom : Q }.

Definition initNodeOrigin : Q * Q := (0, 0).
Definition initSnapGrid : Q * Q := (15, 15).
Definition initDefaultViewport : Viewport := {| vp_x := 0; vp_y := 0; vp_zoom := 1 |}.

(** The configuration props of [ReactFlowProps] the claims are about;
    [None] is an omitted ([undefined]) prop. *)
Record ReactFlowProps := {
  connectionMode : option ConnectionMode;
  connectionRadius : option Q;
  selectionMode : option SelectionMode;
  nodeOrigin : option (Q * Q);
  minZoom : option Q;
  maxZoom : option Q;
  translateExtent : option CoordinateExtent;
  nodeExtent : option CoordinateExtent;
  snapToGrid : option bool;
  snapGrid : option (Q * Q);
  defaultViewport : option Viewport
}.

(** The corresponding props passed to [GraphView]. *)
Record GraphViewProps := {
  gv_selectionMode : SelectionMode;
  gv_defaultViewport : Viewport;
  gv_translateExtent : CoordinateExtent;
  gv_minZoom : Q;
  gv_maxZoom : Q;
  gv_nodeOrigin : Q * Q;
  gv_nodeExtent : option CoordinateExtent
}.

(** The corresponding props passed to [StoreUpdater]. *)
Record StoreUpdaterProps := {
  su_minZoom : Q;
  su_maxZoom : Q;
  su_nodeExtent : option CoordinateExtent;
  su_snapToGrid : bool;
  su_snapGrid : Q * Q;
  su_connectionMode : ConnectionMode;
  su_translateExtent : CoordinateExtent;
  su_nodeOrigin : Q * Q;
  su_connectionRadius : Q
}.

(** A destructuring default [x = d]: applies when the prop is undefined. *)
Definition with_default {A} (d : A) (o : option A) : A :=
  match o with Some v => v | None => d end.

(** The props destructuring of [ReactFlow] and what it passes on to
    [GraphView] and [StoreUpdater]. The original and the rewritten
    containers have the same defaults and the same forwarding for these
    options. *)
Definition ReactFlow (p : ReactFlowProps) : GraphViewProps * StoreUpdaterProps :=
  let connectionMode := with_default Strict (connectionMode p) in
  let selectionMode := with_default Full (selectionMode p) in
  let snapToGrid := with_default false (snapToGrid p) in
  let snapGrid := with_default initSnapGrid (snapGrid p) in
  let nodeOrigin := with_default initNodeOrigin (nodeOrigin p) in
  let defaultViewport := with_default initDefaultViewport (defaultViewport p) in
  let minZoom := with_default (1 # 2) (minZoom p) in
  let maxZoom := with_default 2 (maxZoom p) in
  let translateExtent := with_default infiniteExtent (translateExtent p) in
  let nodeExtent := nodeExtent p in
  let connectionRadius := with_default 20 (connectionRadius p) in
  ({| gv_selectionMode := selectionMode;
      gv_defaultViewport := defaultViewport;
      gv_translateExtent := translateExtent;
      gv_minZoom := minZoom;
      gv_maxZoom := maxZoom;
      gv_nodeOrigin := nodeOrigin;
      gv_nodeExtent := nodeExtent |},
   {| su_minZoom := minZoom;
      su_maxZoom := maxZoom;
      su_nodeExtent := nodeExtent;
      su_snapToGrid := snapToGrid;
      su_snapGrid := snapGrid;
      su_connectionMode := connectionMode;
      su_translateExtent := translateExtent;
      su_nodeOrigin := nodeOrigin;
      su_connectionRadius := connectionRadius |}).

(** No prop given. *)
Definition noProps : ReactFlowProps :=
  {| connectionMode := None; connectionRadius := None; selectionMode := None;
     nodeOrigin := None; minZoom := None; maxZoom := None; translateExtent := None;
     nodeExtent := None; snapToGrid := None; snapGrid := None; defaultViewport := None |}.

(** A zoom range [0.5, 2] with a default viewport zoomed out of it. *)
Definition outOfRangeViewportProps : ReactFlowProps :=
  {| connectionMode := None; connectionRadius := None; selectionMode := None;
     nodeOrigin := None; minZoom := Some (1 # 2); maxZoom := Some 2; translateExtent := None;
     nodeExtent := None; snapToGrid := None; snapGrid := None;
     defaultViewport := Some {| vp_x := 10; vp_y := 20; vp_zoom := 5 |} |}.

(* ===================================================================== *)
(* Store operations that are not in src/                                  *)
(* ===================================================================== *)

(** An axis-aligned box [[x1, y1], [x2, y2]] in flow coordinates. *)
Record Box := { bx1 : Q; by1 : Q; bx2 : Q; by2 : Q }.

(** [clamp(v, lo, hi)]. *)
Definition clampQ (v lo hi : Q) : Q := Qmin (Qmax v lo) hi.

(** Modelled from the spec: the viewport of the zoom pane, which is not in
    src/. [GraphView] receives [defaultViewport], [minZoom] and [maxZoom];
    the pane constrains every zoom it applies to [minZoom, maxZoom] (the
    zoom behaviour's scale extent), the initial one included. *)
Definition constrainZoom (gv : GraphViewProps) (z : Q) : Q :=
  clampQ z (gv_minZoom gv) (gv_maxZoom gv).

(** The viewport at initialization, from [defaultViewport]. *)
Definition initViewport (gv : GraphViewProps) : Viewport :=
  let dv := gv_defaultViewport gv in
  {| vp_x := vp_x dv; vp_y := vp_y dv; vp_zoom := constrainZoom gv (vp_zoom dv) |}.

(** Modelled from the spec: the viewport mutations. [FitView] carries the
    viewport size, the bounds of the nodes to fit and the options
    [padding], [minZoom] and [maxZoom] of [fitView]; [AnimationFrame] is
    one eased tick of an animated transition towards [target], at eased
    progress [progress]. *)
Inductive ViewportOp :=
| SetViewport (v : Viewport)
| ZoomTo (z : Q)
| ZoomBy (factor : Q)
| PanBy (dx dy : Q)
| FitView (width height : Q) (bounds : Box) (padding fitMinZoom fitMaxZoom : Q)
| AnimationFrame (target : Viewport) (progress : Q).

(** [fitView]: [zoom = clamp(min(width/boxWidth, height/boxHeight) *
    (1 - padding), minZoom, maxZoom)], [pan = viewportCenter - boxCenter *
    zoom]. *)
Definition fitViewport (width height : Q) (b : Box) (padding fitMin fitMax : Q) : Viewport :=
  let zoom := clampQ (Qmin (width / (bx2 b - bx1 b)) (height / (by2 b - by1 b)) * (1 - padding))
                fitMin fitMax in
  {| vp_x := width / 2 - (bx1 b + bx2 b) / 2 * zoom;
     vp_y := height / 2 - (by1 b + by2 b) / 2 * zoom;
     vp_zoom := zoom |}.

(** [from + t * (to - from)]. *)
Definition interpolate (from to t : Q) : Q := from + t * (to - from).

(** One viewport mutation: the pane constrains the requested zoom; an
    animation frame interpolates between the current viewport and the
    constrained target, at a progress clamped to [0, 1]. *)
Definition applyViewportOp (gv : GraphViewProps) (v : Viewport) (op : ViewportOp) : Viewport :=
  match op with
  | SetViewport v' =>
      {| vp_x := vp_x v'; vp_y := vp_y v'; vp_zoom := constrainZoom gv (vp_zoom v') |}
  | ZoomTo z => {| vp_x := vp_x v; vp_y := vp_y v; vp_zoom := constrainZoom gv z |}
  | ZoomBy k => {| vp_x := vp_x v; vp_y := vp_y v; vp_zoom := constrainZoom gv (vp_zoom v * k) |}
  | PanBy dx dy => {| vp_x := vp_x v + dx; vp_y := vp_y v + dy; vp_zoom := vp_zoom v |}
  | FitView w h b pad fmin fmax =>
      let f := fitViewport w h b pad fmin fmax in
      {| vp_x := vp_x f; vp_y := vp_y f; vp_zoom := constrainZoom gv (vp_zoom f) |}
  | AnimationFrame target p =>
      let t := clampQ p 0 1 in
      {| vp_x := interpolate (vp_x v) (vp_x target) t;
         vp_y := interpolate (vp_y v) (vp_y target) t;
         vp_zoom := interpolate (vp_zoom v) (constrainZoom gv (vp_zoom target)) t |}
  end.

(** The viewports after each mutation of a sequence. *)
Fixpoint viewportTrace (gv : GraphViewProps) (v : Viewport) (ops : list ViewportOp)
  : list Viewport :=
  match ops with
  | [] => []
  | op :: rest => let v' := applyViewportOp gv v op in v' :: viewportTrace gv v' rest
  end.

(** [minZoom <= zoom <= maxZoom]. *)
Definition zoom_in_bounds (gv : GraphViewProps) (v : Viewport) : Prop :=
  gv_minZoom gv <= vp_zoom v <= gv_maxZoom gv.

(** Modelled from the spec: the node record the store keeps, as
    [updateNodePositions] and [updateNodeDimensions] use it (the store is
    not in src/): absolute position, measured size (absent until
    reported), parent, selection, draggability and extent. *)
Record StoreNode := {
  sn_positionAbsolute : Q * Q;
  sn_measured : option (Q * Q);
  sn_parentId : option string;
  sn_selected : bool;
  sn_draggable : bool;
  sn_extent : option Box
}.

(** Modelled from the spec: a position clamped to a node's [extent]. *)
Definition clampPosition (pos : Q * Q) (extent : option Box) : Q * Q :=
  match extent with
  | None => pos
  | Some b => (clampQ (fst pos) (bx1 b) (bx2 b), clampQ (snd pos) (by1 b) (by2 b))
  end.

Definition set_position (n : StoreNode) (pos : Q * Q) : StoreNode :=
  {| sn_positionAbsolute := pos; sn_measured := sn_measured n; sn_parentId := sn_parentId n;
     sn_selected := sn_selected n; sn_draggable := sn_draggable n; sn_extent := sn_extent n |}.

(** Modelled from the spec: [updateNodePositions(deltas, dragging)]
    ("applies position deltas to the currently dragged node and, if
    multiple selected, to every other selected draggable node
    identically; clamps each resulting position to its extent"). The
    result is the next node map; the position change batch is the list of
    moved ids with their new positions. *)
Definition updateNodePositions (delta : Q * Q) (nodes : gmap string StoreNode)
  : gmap string StoreNode * list (string * (Q * Q)) :=
  let moved := List.filter (fun kv => sn_selected (snd kv) && sn_draggable (snd kv))
                 (map_to_list nodes) in
  let newPos n := clampPosition (fst (sn_positionAbsolute n) + fst delta,
                                 snd (sn_positionAbsolute n) + snd delta) (sn_extent n) in
  (fmap (fun n => if sn_selected n && sn_draggable n then set_position n (newPos n) else n) nodes,
   map (fun kv => (fst kv, newPos (snd kv))) moved).

Section Dimensions.

(** The fixed margin added around a parent when it is expanded. *)
Variable margin : Q.

(** A node's box: its absolute position and measured size, zero-size
    when not measured yet. *)
Definition nodeBox (n : StoreNode) : Box :=
  let '(x, y) := sn_positionAbsolute n in
  let '(w, h) := default (0, 0) (sn_measured n) in
  {| bx1 := x; by1 := y; bx2 := x + w; by2 := y + h |}.

Definition box_contains (outer inner : Box) : bool :=
  Qle_bool (bx1 outer) (bx1 inner) && Qle_bool (by1 outer) (by1 inner) &&
  Qle_bool (bx2 inner) (bx2 outer) && Qle_bool (by2 inner) (by2 outer).

Definition box_union (a b : Box) : Box :=
  {| bx1 := Qmin (bx1 a) (bx1 b); by1 := Qmin (by1 a) (by1 b);
     bx2 := Qmax (bx2 a) (bx2 b); by2 := Qmax (by2 a) (by2 b) |}.

Definition with_margin (b : Box) : Box :=
  {| bx1 := bx1 b - margin; by1 := by1 b - margin;
     bx2 := bx2 b + margin; by2 := by2 b + margin |}.

Definition is_child_of (pid : string) (n : StoreNode) : bool :=
  match sn_parentId n with Some q => String.eqb q pid | None => false end.

(** Modelled from the spec: the box a parent is enlarged to, "the
    smallest box containing the union of its own current box and all
    immediate children's boxes, plus a fixed margin". *)
Definition expandedParentBox (nodes : gmap string StoreNode) (pid : string)
    (parent : StoreNode) : Box :=
  with_margin
    (fold_left box_union
       (map (fun kv => nodeBox (snd kv))
          (List.filter (fun kv => is_child_of pid (snd kv)) (map_to_list nodes)))
       (nodeBox parent)).

(** The parent moved and resized to a box (its synthetic dimensions
    change). *)
Definition resize_to (n : StoreNode) (b : Box) : StoreNode :=
  {| sn_positionAbsolute := (bx1 b, by1 b);
     sn_measured := Some (bx2 b - bx1 b, by2 b - by1 b);
     sn_parentId := sn_parentId n; sn_selected := sn_selected n;
     sn_draggable := sn_draggable n; sn_extent := sn_extent n |}.

(** Modelled from the spec: parent expansion, "whenever a descendant's
    absolute bounding box would not fit within its parent's currently
    measured box, a synthetic dimensions change is produced for the
    parent (and recursively for the parent's own ancestors)"; [fuel]
    bounds the walk up the parent chain. *)
Fixpoint handleParentExpand (fuel : nat) (nodes : gmap string StoreNode) (childId : string)
  : gmap string StoreNode :=
  match fuel with
  | O => nodes
  | S f =>
      match nodes !! childId with
      | None => nodes
      | Some child =>
          match sn_parentId child with
          | None => nodes
          | Some pid =>
              match nodes !! pid with
              | None => nodes
              | Some parent =>
                  if box_contains (nodeBox parent) (nodeBox child) then nodes
                  else
                    let nodes' := <[pid := resize_to parent (expandedParentBox nodes pid parent)]> nodes in
                    handleParentExpand f nodes' pid
              end
          end
      end
  end.

Definition set_measured (n : StoreNode) (w h : Q) : StoreNode :=
  {| sn_positionAbsolute := sn_positionAbsolute n; sn_measured := Some (w, h);
     sn_parentId := sn_parentId n; sn_selected := sn_selected n;
     sn_draggable := sn_draggable n; sn_extent := sn_extent n |}.

(** A reported measurement [{ id, width, height }] (with or without
    [forceUpdate]). *)
Record NodeDimensionUpdate := { du_id : string; du_width : Q; du_height : Q }.

(** Modelled from the spec: [updateNodeDimensions(measurements)], an
    "upsert of measured width/height per node id" that "triggers
    parent-expansion when a child's bounding box now exceeds its parent's
    measured box"; an unknown id is ignored. *)
Definition updateNodeDimension (nodes : gmap string StoreNode) (u : NodeDimensionUpdate)
  : gmap string StoreNode :=
  match nodes !! du_id u with
  | None => nodes
  | Some n =>
      handleParentExpand (size nodes)
        (<[du_id u := set_measured n (du_width u) (du_height u)]> nodes) (du_id u)
  end.

Definition updateNodeDimensions (nodes : gmap string StoreNode) (us : list NodeDimensionUpdate)
  : gmap string StoreNode :=
  fold_left updateNodeDimension us nodes.

(** Parent links go strictly down a rank: the parent chains have no cycle
    (the spec requires parentId cycles to be rejected at reconciliation). *)
Definition parents_ranked (rank : string -> nat) (nodes : gmap string StoreNode) : Prop :=
  forall c n pid, nodes !! c = Some n -> sn_parentId n = Some pid -> (rank pid < rank c)%nat.

(** The same condition, checked on the map. *)
Definition parents_ranked_b (rank : string -> nat) (nodes : gmap string StoreNode) : bool :=
  forallb (fun kv => match sn_parentId (snd kv) with
                     | Some pid => Nat.ltb (rank pid) (rank (fst kv))
                     | None => true
                     end) (map_to_list nodes).

End Dimensions.

(* ===================================================================== *)
(* More of the containers and of the node wrapper                        *)
(* ===================================================================== *)

(** The rendered node [div] as the dispatch helpers see it in the DOM:
    [data-eltype] and [data-nodedata] from the render, no
    [data-edgedata]; [r] is its identity. *)
Definition rendered_element {D : Type} (r : nat) (d : NodeDiv D) : HTMLElement :=
  {| el_ref := r; eltype := Some (div_data_eltype D d);
     nodedata := div_data_nodedata D d; edgedata := None |}.

(** The original container moves the pointer from one element to another:
    the DOM fires [mouseout] on the element left, then [mouseover] on the
    element entered; both bubble to the wrapper [div], whose [onMouseOut]
    is [eventHandlersDecorator(onNodeMouseLeave, onEdgeMouseLeave)] and
    whose [onMouseOver] is [eventHandlersDecorator(onNodeMouseEnter,
    onEdgeMouseEnter)]. *)
Definition pointer_move_old {Rec : Type} (JSON_parse : string -> Rec) (p : HoverProps)
    (wrapper : HTMLElement) (from to : ElementChain) : list (Effect Rec) :=
  eventHandlersDecorator_old JSON_parse (onNodeMouseLeave p) (onEdgeMouseLeave p)
    {| target := from; currentTarget := wrapper |} ++
  eventHandlersDecorator_old JSON_parse (onNodeMouseEnter p) (onEdgeMouseEnter p)
    {| target := to; currentTarget := wrapper |}.

(** A call of one of the two enter callbacks of the props. *)
Definition is_enter_call {Rec : Type} (p : HoverProps) (e : Effect Rec) : bool :=
  match e with
  | CallNodeHandler h _ => same_ref (Some h) (onNodeMouseEnter p)
  | CallEdgeHandler h _ => same_ref (Some h) (onEdgeMouseEnter p)
  | _ => false
  end.

(** The refs [prevType], [prevSourcePosition] and [prevTargetPosition] of
    the wrapper. *)
Record DimRefs := {
  prevTypeRef : string;
  prevSourceRef : option Position;
  prevTargetRef : option Position
}.

(** What React keeps for the effect with dependencies [[id, type,
    sourcePosition, targetPosition]]: the refs and the dependency values
    of the last render. *)
Record DimEffectState := {
  ds_refs : DimRefs;
  ds_deps : string * string * option Position * option Position
}.

Definition effect_deps {D : Type} (p : WrapNodeProps D)
  : string * string * option Position * option Position :=
  (id D p, type D p, sourcePosition D p, targetPosition D p).

(** The effect body. [nodeRef.current] is [null] when the wrapper rendered
    nothing ([hidden]); otherwise the refs that changed are updated and
    [updateNodeDimensions] is called with [forceUpdate: true]. *)
Definition dimensionsEffectBody {D : Type} (refs : DimRefs) (p : WrapNodeProps D)
  : DimRefs * option string :=
  if hidden D p then (refs, None)
  else
    match dimensionsEffect D (prevTypeRef refs) (prevSourceRef refs) (prevTargetRef refs) p with
    | None => (refs, None)
    | Some i =>
        let typeChanged := negb (String.eqb (prevTypeRef refs) (type D p)) in
        let sourcePosChanged := negb (bool_decide (prevSourceRef refs = sourcePosition D p)) in
        let targetPosChanged := negb (bool_decide (prevTargetRef refs = targetPosition D p)) in
        ({| prevTypeRef := if typeChanged then type D p else prevTypeRef refs;
            prevSourceRef := if sourcePosChanged then sourcePosition D p else prevSourceRef refs;
            prevTargetRef := if targetPosChanged then targetPosition D p else prevTargetRef refs |},
         Some i)
    end.

(** Mount: the refs start at the first props ([useRef(type)], ...) and the
    effect runs once. *)
Definition dimensionsEffectMount {D : Type} (p : WrapNodeProps D)
  : DimEffectState * option string :=
  let refs0 := {| prevTypeRef := type D p; prevSourceRef := sourcePosition D p;
                  prevTargetRef := targetPosition D p |} in
  let '(refs, u) := dimensionsEffectBody refs0 p in
  ({| ds_refs := refs; ds_deps := effect_deps p |}, u).

(** A later render: the effect runs only when a dependency changed
    ([Object.is] on each). *)
Definition dimensionsEffectRender {D : Type} (s : DimEffectState) (p : WrapNodeProps D)
  : DimEffectState * option string :=
  if bool_decide (effect_deps p = ds_deps s) then (s, None)
  else
    let '(refs, u) := dimensionsEffectBody (ds_refs s) p in
    ({| ds_refs := refs; ds_deps := effect_deps p |}, u).

Fixpoint dimensionsEffectRun {D : Type} (s : DimEffectState) (ps : list (WrapNodeProps D))
  : list (option string) :=
  match ps with
  | [] => []
  | p :: rest =>
      let '(s', u) := dimensionsEffectRender s p in
      u :: dimensionsEffectRun s' rest
  end.

(** The forced updates of a wrapper mounted with [p0] and rendered again
    with each props of [ps] in turn. *)
Definition nodeLifecycle {D : Type} (p0 : WrapNodeProps D) (ps : list (WrapNodeProps D))
  : list (option string) :=
  let '(s0, u0) := dimensionsEffectMount p0 in
  u0 :: dimensionsEffectRun s0 ps.

(** Each render compared with the render before it. *)
Fixpoint changes_from_previous {D : Type} (prev : WrapNodeProps D) (ps : list (WrapNodeProps D))
  : list (option string) :=
  match ps with
  | [] => []
  | p :: rest =>
      dimensionsEffect D (type D prev) (sourcePosition D prev) (targetPosition D prev) p
        :: changes_from_previous p rest
  end.

(** The closure [hoverEventHandlersDecorator] builds in the first render,
    over the initial [currentHovered]. *)
Definition mount_closure {Rec : Type} (p : HoverProps) : HoverClosure Rec :=
  {| captured := noHovered;
     nodeEnterCallback := onNodeMouseEnter p; edgeEnterCallback := onEdgeMouseEnter p;
     nodeLeaveCallback := onNodeMouseLeave p; edgeLeaveCallback := onEdgeMouseLeave p |}.

(** The refs as they are right after a render with props [p]. *)
Definition refs_of {D : Type} (p : WrapNodeProps D) : DimRefs :=
  {| prevTypeRef := type D p; prevSourceRef := sourcePosition D p; prevTargetRef := targetPosition D p |}.

(** The value of a handler prop of the wrapper [div]. *)
Inductive DivHandler :=
| UserHandler (h : HandlerRef)
| LoggingDecoratedHandler (nodeCallback edgeCallback : option HandlerRef)
| DecoratedHandler (nodeCallback edgeCallback : option HandlerRef)
| ClickHandler (onClick nodeCallback edgeCallback : option HandlerRef)
| HoverDecoratedHandler (nodeEnter edgeEnter nodeLeave edgeLeave : option HandlerRef).

(** The element callbacks given to the container. *)
Record FlowCallbacks := {
  onNodeClick : option HandlerRef; onEdgeClick : option HandlerRef;
  onNodeDoubleClick : option HandlerRef; onEdgeDoubleClick : option HandlerRef;
  onNodeContextMenu : option HandlerRef; onEdgeContextMenu : option HandlerRef;
  onNodeMouseMove : option HandlerRef; onEdgeMouseMove : option HandlerRef;
  hoverProps : HoverProps
}.

(** The first value of a prop among the DOM props given to the container
    (an object has one value per key). *)
Definition prop_lookup (name : string) (domProps : list (string * HandlerRef)) : option HandlerRef :=
  option_map snd (List.find (fun kv => String.eqb (fst kv) name) domProps).

(** JSX props of an element: a later prop overrides an earlier one. *)
Definition jsx_prop (attrs : list (string * DivHandler)) (name : string) : option DivHandler :=
  fold_left (fun acc kv => if String.eqb (fst kv) name then Some (snd kv) else acc) attrs None.

(** The handler props of the original container's wrapper [div]:
    [{...rest}] first ([onClick] is not destructured, so a DOM [onClick]
    given to the container is in [rest]), then its own handlers. *)
Definition wrapper_div_old (cbs : FlowCallbacks) (domProps : list (string * HandlerRef))
  : list (string * DivHandler) :=
  map (fun kv => (fst kv, UserHandler (snd kv))) domProps ++
  [("onDoubleClick", LoggingDecoratedHandler (onNodeDoubleClick cbs) (onEdgeDoubleClick cbs));
   ("onContextMenu", LoggingDecoratedHandler (onNodeContextMenu cbs) (onEdgeContextMenu cbs));
   ("onMouseMove", LoggingDecoratedHandler (onNodeMouseMove cbs) (onEdgeMouseMove cbs));
   ("onClick", LoggingDecoratedHandler (onNodeClick cbs) (onEdgeClick cbs));
   ("onMouseOver", LoggingDecoratedHandler (onNodeMouseEnter (hoverProps cbs)) (onEdgeMouseEnter (hoverProps cbs)));
   ("onMouseOut", LoggingDecoratedHandler (onNodeMouseLeave (hoverProps cbs)) (onEdgeMouseLeave (hoverProps cbs)))].

(** The handler props of the rewritten container's wrapper [div]:
    [onClick] is destructured (so it is not in [rest]) and wrapped by
    [onClk]; there is no [onMouseOut]. *)
Definition wrapper_div_new (cbs : FlowCallbacks) (domProps : list (string * HandlerRef))
  : list (string * DivHandler) :=
  let onClick := prop_lookup "onClick" domProps in
  let rest := List.filter (fun kv => negb (String.eqb (fst kv) "onClick")) domProps in
  map (fun kv => (fst kv, UserHandler (snd kv))) rest ++
  [("onDoubleClick", DecoratedHandler (onNodeDoubleClick cbs) (onEdgeDoubleClick cbs));
   ("onContextMenu", DecoratedHandler (onNodeContextMenu cbs) (onEdgeContextMenu cbs));
   ("onMouseMove", DecoratedHandler (onNodeMouseMove cbs) (onEdgeMouseMove cbs));
   ("onClick", ClickHandler onClick (onNodeClick cbs) (onEdgeClick cbs));
   ("onMouseOver", HoverDecoratedHandler (onNodeMouseEnter (hoverProps cbs)) (onEdgeMouseEnter (hoverProps cbs))
                     (onNodeMouseLeave (hoverProps cbs)) (onEdgeMouseLeave (hoverProps cbs)))].

(** What the wrapper observes when a handler runs: a DOM handler given by
    the user is called, or one of the flow's element callbacks (or a
    console write). *)
Inductive WrapperEffect (Rec : Type) :=
| DomCall (h : HandlerRef)
| FlowEffect (e : Effect Rec).

Arguments DomCall {Rec}.
Arguments FlowEffect {Rec}.

(** Running a stateless handler prop of the wrapper on an event: the
    [onClk] of the rewritten container calls [onClick(event)] first, then
    [onElClick(event)]. The hover handler keeps state and is run by
    [dispatch_mouseover] instead ([None] here). *)
Definition run_div_handler {Rec : Type} (JSON_parse : string -> Rec) (h : DivHandler)
    (ev : MouseEvent) : option (list (WrapperEffect Rec)) :=
  match h with
  | UserHandler u => Some [DomCall u]
  | LoggingDecoratedHandler n e => Some (map FlowEffect (eventHandlersDecorator_old JSON_parse n e ev))
  | DecoratedHandler n e => Some (map FlowEffect (eventHandlersDecorator JSON_parse n e ev))
  | ClickHandler oc n e =>
      Some ((match oc with Some u => [DomCall u] | None => [] end) ++
            map FlowEffect (eventHandlersDecorator JSON_parse n e ev))
  | HoverDecoratedHandler _ _ _ _ => None
  end.

(** A click on the wrapper [div]: the [onClick] prop it ends up with runs. *)
Definition wrapper_click {Rec : Type} (JSON_parse : string -> Rec)
    (attrs : list (string * DivHandler)) (ev : MouseEvent) : option (list (WrapperEffect Rec)) :=
  match jsx_prop attrs "onClick" with
  | Some h => run_div_handler JSON_parse h ev
  | None => Some []
  end.

(** A CSS property value. *)
Inductive CSSValue := CssString (s : string) | CssNumber (q : Q).

(** [wrapperStyle]. *)
Definition wrapperStyle : gmap string CSSValue :=
  list_to_map [("width", CssString "100%"); ("height", CssString "100%");
               ("overflow", CssString "hidden"); ("position", CssString "relative");
               ("zIndex", CssNumber 0)].

(** [style={{ ...style, ...wrapperStyle }}]: the entries of the later
    spread win; spreading [undefined] adds nothing. *)
Definition wrapper_div_style (style : option (gmap string CSSValue)) : gmap string CSSValue :=
  wrapperStyle ∪ default ∅ style.

(* ===================================================================== *)
(* Concrete DOM fragments used by the witnesses and counterexamples       *)
(* ===================================================================== *)

(** The ReactFlow wrapper [div] (the listening element). *)
Definition wrapper_div : HTMLElement :=
  {| el_ref := 1%nat; eltype := None; nodedata := None; edgedata := None |}.

(** A node of an enclosing flow that contains this ReactFlow instance. *)
Definition outer_node_div : HTMLElement :=
  {| el_ref := 0%nat; eltype := Some "node"; nodedata := Some "outer"; edgedata := None |}.

(** The pane of the flow, not annotated. *)
Definition pane_div : HTMLElement :=
  {| el_ref := 2%nat; eltype := None; nodedata := None; edgedata := None |}.

(** Two rendered nodes of this flow, with serialized node data. *)
Definition node_a_div : HTMLElement :=
  {| el_ref := 3%nat; eltype := Some "node"; nodedata := Some "a"; edgedata := None |}.

Definition node_b_div : HTMLElement :=
  {| el_ref := 4%nat; eltype := Some "node"; nodedata := Some "b"; edgedata := None |}.

(** A click on the pane of a flow nested in a node of an outer flow. *)
Definition pane_click_in_nested_flow : MouseEvent :=
  {| target := [pane_div; wrapper_div; outer_node_div]; currentTarget := wrapper_div |}.

Definition over_node_a : MouseEvent :=
  {| target := [node_a_div; pane_div; wrapper_div]; currentTarget := wrapper_div |}.

Definition over_node_b : MouseEvent :=
  {| target := [node_b_div; pane_div; wrapper_div]; currentTarget := wrapper_div |}.

(** All four hover callbacks supplied: node enter 1, edge enter 2, node
    leave 3, edge leave 4. *)
Definition all_hover_props : HoverProps :=
  {| onNodeMouseEnter := Some 1%nat; onEdgeMouseEnter := Some 2%nat;
     onNodeMouseLeave := Some 3%nat; onEdgeMouseLeave := Some 4%nat |}.

(** The closure [hoverEventHandlersDecorator] builds in the render that
    follows hovering node "a". *)
Definition closure_after_hovering_a : HoverClosure string :=
  {| captured := {| hov_elType := Some "node"; hov_el := Some "a" |};
     nodeEnterCallback := Some 1%nat; edgeEnterCallback := Some 2%nat;
     nodeLeaveCallback := Some 3%nat; edgeLeaveCallback := Some 4%nat |}.

(** A focused, selectable, selected, draggable node at (10, 20). *)
Definition sample_node_props : WrapNodeProps unit :=
  {| id := "child"; type := "default"; data := tt;
     xPos := 10; yPos := 20; xPosOrigin := 10; yPosOrigin := 20;
     selected := true; style := []; className := None;
     isDraggable := true; isSelectable := true; isConnectable := true; isFocusable := true;
     sourcePosition := Some Bottom; targetPosition := Some Top;
     hidden := false; dragHandle := None; zIndex := 0; isParent := false;
     noPanClassName := "nopan"; initialized := true; disableKeyboardA11y := false;
     ariaLabel := None; rfId := "1" |}.

Definition arrow_up_event : KeyboardEvent :=
  {| key := "ArrowUp"; shiftKey := false; inInputDOMNode := false |}.

(** A group node "parent" of 100x100 at the origin and its child at
    (50, 50), not measured yet. *)
Definition sample_store : gmap string StoreNode :=
  <["parent" := {| sn_positionAbsolute := (0, 0); sn_measured := Some (100, 100);
                   sn_parentId := None; sn_selected := false; sn_draggable := true;
                   sn_extent := None |}]>
  (<["child" := {| sn_positionAbsolute := (50, 50); sn_measured := None;
                   sn_parentId := Some "parent"; sn_selected := true; sn_draggable := true;
                   sn_extent := None |}]> ∅).

Definition sample_rank (k : string) : nat := if String.eqb k "child" then 1%nat else 0%nat.

(** The child measured at 200x30: it now overflows its parent. *)
Definition grow_child : NodeDimensionUpdate := {| du_id := "child"; du_width := 200; du_height := 30 |}.

(** An element inside a rendered node (a label), not annotated. *)
Definition label_div : HTMLElement :=
  {| el_ref := 5%nat; eltype := None; nodedata := None; edgedata := None |}.

(** The pointer over the pane. *)
Definition over_pane : MouseEvent :=
  {| target := [pane_div; wrapper_div]; currentTarget := wrapper_div |}.

(** A closure whose [currentHovered] is the edge "e1", with no edge leave
    callback. *)
Definition closure_after_hovering_edge : HoverClosure string :=
  {| captured := {| hov_elType := Some "edge"; hov_el := Some "e1" |};
     nodeEnterCallback := Some 1%nat; edgeEnterCallback := Some 2%nat;
     nodeLeaveCallback := Some 3%nat; edgeLeaveCallback := None |}.

(** Wrapper props of a node "n1" of a given type, hidden or not, with
    keyboard accessibility on or off. *)
Definition sample_node (ty : string) (hid dis : bool) : WrapNodeProps unit :=
  {| id := "n1"; type := ty; data := tt;
     xPos := 0; yPos := 0; xPosOrigin := 0; yPosOrigin := 0;
     selected := true; style := []; className := None;
     isDraggable := true; isSelectable := true; isConnectable := true; isFocusable := true;
     sourcePosition := Some Bottom; targetPosition := Some Top;
     hidden := hid; dragHandle := None; zIndex := 0; isParent := false;
     noPanClassName := "nopan"; initialized := true; disableKeyboardA11y := dis;
     ariaLabel := None; rfId := "1" |}.

(** Node click 10 and edge click 11, no other element callback. *)
Definition sample_callbacks : FlowCallbacks :=
  {| onNodeClick := Some 10%nat; onEdgeClick := Some 11%nat;
     onNodeDoubleClick := None; onEdgeDoubleClick := None;
     onNodeContextMenu := None; onEdgeContextMenu := None;
     onNodeMouseMove := None; onEdgeMouseMove := None;
     hoverProps := all_hover_props |}.

(* ===================================================================== *)
(* Theorems                                                               *)
(* ===================================================================== *)

Lemma findNodeOrEdge_old_result {Rec : Type} (chain : ElementChain) (l : HTMLElement) :
  fst (findNodeOrEdge_old (Rec:=Rec) chain l) = findNodeOrEdge chain l.
Proof.
  induction chain as [|n ps IH]; simpl; [done|].
  destruct (truthy (eltype n)); [done|].
  destruct ps as [|p ps']; [done|].
  destruct (same_element p l); [done|].
  destruct (findNodeOrEdge_old (p :: ps') l) as [r logs] eqn:E.
  simpl in IH |- *. exact IH.
Qed.

Lemma callbacks_app {Rec : Type} (xs ys : list (Effect Rec)) :
  callbacks (xs ++ ys) = callbacks xs ++ callbacks ys.
Proof. unfold callbacks. apply List.filter_app. Qed.

Lemma callbacks_console_logs {Rec : Type} (logs : list (ConsoleValue Rec)) :
  callbacks (map Console logs) = [].
Proof. induction logs; simpl; done. Qed.

Lemma is_eltype_node_not_edge (v : option string) :
  is_eltype v "node" = true -> is_eltype v "edge" = false.
Proof.
  destruct v as [x|]; simpl; [|done].
  intros H. apply String.eqb_eq in H. subst x. reflexivity.
Qed.

Lemma findNodeOrEdge_searched_chain (chain : ElementChain) (l : HTMLElement) :
  findNodeOrEdge chain l = nearest_annotated (searched_chain chain l).
Proof.
  induction chain as [|n ps IH]; [done|].
  cbn [findNodeOrEdge searched_chain]. unfold nearest_annotated in *. cbn [List.find].
  destruct (truthy (eltype n)); [done|].
  destruct ps as [|p ps']; [done|].
  cbn [ancestors_until]. destruct (same_element p l) eqn:E; [done|].
  rewrite IH. reflexivity.
Qed.

(** C1: the original and the rewritten containers dispatch alike. For
    every element chain and listening element, the original
    [findNodeOrEdge] (which also logs) returns the same element or [null]
    as the rewritten one. For every pair of callbacks and every mouse
    event, the callback calls of the original [eventHandlersDecorator]
    (console output dropped) are exactly those of the rewritten one: same
    callback, same parsed record. *)
Theorem old_new_dispatch_equivalent {Rec : Type} (JSON_parse : string -> Rec)
    (nodeCallback edgeCallback : option HandlerRef) (event : MouseEvent) :
  fst (findNodeOrEdge_old (Rec:=Rec) (target event) (currentTarget event))
    = findNodeOrEdge (target event) (currentTarget event) /\
  callbacks (eventHandlersDecorator_old JSON_parse nodeCallback edgeCallback event)
    = eventHandlersDecorator JSON_parse nodeCallback edgeCallback event.
Proof.
  split; [apply findNodeOrEdge_old_result|].
  unfold eventHandlersDecorator_old, eventHandlersDecorator.
  destruct (negb (is_defined nodeCallback) && negb (is_defined edgeCallback)); [done|].
  pose proof (findNodeOrEdge_old_result (Rec:=Rec) (target event) (currentTarget event)) as Hf.
  destruct (findNodeOrEdge_old (target event) (currentTarget event)) as [found logs].
  simpl in Hf. subst found.
  rewrite callbacks_app, callbacks_console_logs. simpl.
  destruct (findNodeOrEdge (target event) (currentTarget event)) as [data|]; [|done].
  destruct (is_eltype (eltype data) "node"), nodeCallback as [cb|],
    (is_eltype (eltype data) "edge"), edgeCallback as [cb'|];
    first [done | unfold with_truthy; repeat case_match; reflexivity].
Qed.

(** C2, as stated: the callback called is the one given by the nearest
    annotated element among the target and all its ancestors. False: a
    click on the pane of a flow nested inside a node of an outer flow
    finds no annotated element below the listening wrapper and calls
    nothing, while the nearest annotated ancestor (the outer node, above
    the wrapper) carries node data. *)
Lemma dispatch_stops_at_listening_element :
  ~ (forall (nodeCallback edgeCallback : option HandlerRef) (ev : MouseEvent),
       eventHandlersDecorator (Rec:=string) (fun s => s) nodeCallback edgeCallback ev
       = expected_dispatch (fun s => s) nodeCallback edgeCallback
           (nearest_annotated (target ev))).
Proof.
  intros H. specialize (H (Some 1%nat) None pane_click_in_nested_flow).
  vm_compute in H. discriminate H.
Qed.

(** C2, amended: for every event, the handler calls at most one callback:
    the node callback (with the parsed node data) exactly when the
    nearest annotated element among the elements [findNodeOrEdge] walks
    through (the target, then its ancestors up to but excluding the first
    one that is the listening element) is a ['node'] element with
    non-empty node data and the node callback is supplied; the edge
    callback likewise for an ['edge'] element with non-empty edge data;
    nothing otherwise. With neither callback supplied, it does nothing. *)
Theorem dispatch_nearest_annotated_below_listener {Rec : Type} (JSON_parse : string -> Rec)
    (nodeCallback edgeCallback : option HandlerRef) (ev : MouseEvent) :
  eventHandlersDecorator JSON_parse nodeCallback edgeCallback ev
    = expected_dispatch JSON_parse nodeCallback edgeCallback
        (nearest_annotated (searched_chain (target ev) (currentTarget ev))) /\
  eventHandlersDecorator JSON_parse None None ev = [].
Proof.
  split; [|reflexivity].
  unfold eventHandlersDecorator.
  rewrite <- findNodeOrEdge_searched_chain.
  destruct nodeCallback as [ncb|], edgeCallback as [ecb|]; simpl;
    destruct (findNodeOrEdge (target ev) (currentTarget ev)) as [data|]; simpl; try done;
    destruct (is_eltype (eltype data) "node") eqn:En; try done;
    try (rewrite (is_eltype_node_not_edge _ En); done);
    destruct (is_eltype (eltype data) "edge"); done.
Qed.

(** The hover handler, had it seen the [currentHovered] committed after
    hovering node "a" (the value the render rebuilds it with), would call
    the node leave callback on "a" before the node enter callback on "b". *)
Lemma hover_handler_fresh_state_leaves_first :
  hoverHandler (fun s => s) (fun s => s) closure_after_hovering_a over_node_b
  = ([CallNodeHandler 3%nat "a"; CallNodeHandler 1%nat "b"],
     Some {| hov_elType := Some "node"; hov_el := Some "b" |}).
Proof. reflexivity. Qed.

(** C3 (code defect): with all four hover callbacks supplied, hovering
    node "a" and then node "b" calls the node enter callback on "a" and
    then on "b", and never the node leave callback on "a". The
    [useCallback] wrapping [onElMouseEnter] lists only the two enter
    callbacks as dependencies, so the handler keeps the closure of the
    first render, whose [currentHovered] is [{ elType: null, el: null }],
    although the React state records "a" after the first event. *)
Theorem hover_leave_skipped_by_stale_closure :
  let '(effects, final) :=
    run_mouseovers (Rec:=string) (fun s => s) (fun s => s) all_hover_props
      (mount all_hover_props) [over_node_a; over_node_b] in
  effects = [CallNodeHandler 1%nat "a"; CallNodeHandler 1%nat "b"] /\
  currentHovered final = {| hov_elType := Some "node"; hov_el := Some "b" |} /\
  (match onElMouseEnter_memo final with
   | Some (_, c) => captured c
   | None => {| hov_elType := Some "none"; hov_el := None |}
   end) = noHovered.
Proof. vm_compute. auto. Qed.

(** Erasure of the forwarded [data] value from a render: the [data] prop
    of the custom node component and the serialized [data-nodedata]. *)
Definition erase_data {D : Type} (o : option (NodeDiv D)) : option (NodeDiv unit) :=
  match o with
  | None => None
  | Some d =>
      let c := div_child D d in
      Some {|
        div_className := div_className D d; div_zIndex := div_zIndex D d;
        div_transform := div_transform D d; div_pointerEvents := div_pointerEvents D d;
        div_visibility := div_visibility D d; div_userStyle := div_userStyle D d;
        div_data_id := div_data_id D d; div_data_testid := div_data_testid D d;
        div_onKeyDown := div_onKeyDown D d; div_tabIndex := div_tabIndex D d;
        div_role := div_role D d; div_aria_describedby := div_aria_describedby D d;
        div_aria_label := div_aria_label D d; div_data_nodedata := None;
        div_data_eltype := div_data_eltype D d;
        div_child := {|
          np_id := np_id D c; np_data := tt; np_type := np_type D c;
          np_xPos := np_xPos D c; np_yPos := np_yPos D c; np_selected := np_selected D c;
          np_isConnectable := np_isConnectable D c;
          np_sourcePosition := np_sourcePosition D c;
          np_targetPosition := np_targetPosition D c;
          np_dragging := np_dragging D c; np_dragHandle := np_dragHandle D c;
          np_zIndex := np_zIndex D c |} |}
  end.

(** The same wrapper props with another [data] payload. *)
Definition with_data {D : Type} (p : WrapNodeProps D) (d : D) : WrapNodeProps D :=
  {| id := id D p; type := type D p; data := d;
     xPos := xPos D p; yPos := yPos D p; xPosOrigin := xPosOrigin D p; yPosOrigin := yPosOrigin D p;
     selected := selected D p; style := style D p; className := className D p;
     isDraggable := isDraggable D p; isSelectable := isSelectable D p;
     isConnectable := isConnectable D p; isFocusable := isFocusable D p;
     sourcePosition := sourcePosition D p; targetPosition := targetPosition D p;
     hidden := hidden D p; dragHandle := dragHandle D p; zIndex := zIndex D p;
     isParent := isParent D p; noPanClassName := noPanClassName D p;
     initialized := initialized D p; disableKeyboardA11y := disableKeyboardA11y D p;
     ariaLabel := ariaLabel D p; rfId := rfId D p |}.

(** C4: the wrapper never inspects its [data] payload. For every payload
    type and every two runs whose props differ only in [data] (and whose
    store nodes may differ in their [data] too): the render is the same
    except for the forwarded [data] prop and the serialized
    [data-nodedata]; the child gets exactly the given [data]; and the key
    handler and the dimension-update effect are the same. *)
Theorem node_wrapper_data_opaque {D : Type} (ARIA_NODE_DESC_KEY : string)
    (dataToAttribute : option (NodeInternal D) -> string -> option string)
    (p : WrapNodeProps D) (d1 d2 : D) (dragging : bool)
    (nodeInternals1 nodeInternals2 : string -> option (NodeInternal D))
    (elementSelectionKeys : list string) (ev : KeyboardEvent)
    (prevType : string) (prevSource prevTarget : option Position) :
  erase_data (NodeWrapper D ARIA_NODE_DESC_KEY dataToAttribute (with_data p d1) dragging nodeInternals1)
    = erase_data (NodeWrapper D ARIA_NODE_DESC_KEY dataToAttribute (with_data p d2) dragging nodeInternals2) /\
  option_map (fun r => np_data D (div_child D r))
    (NodeWrapper D ARIA_NODE_DESC_KEY dataToAttribute (with_data p d1) dragging nodeInternals1)
    = (if hidden D p then None else Some d1) /\
  keyDownOnNode D elementSelectionKeys (with_data p d1) ev
    = keyDownOnNode D elementSelectionKeys (with_data p d2) ev /\
  dimensionsEffect D prevType prevSource prevTarget (with_data p d1)
    = dimensionsEffect D prevType prevSource prevTarget (with_data p d2).
Proof.
  unfold NodeWrapper, keyDownOnNode, onKeyDown, dimensionsEffect; simpl.
  destruct (hidden D p); simpl; repeat split; reflexivity.
Qed.

Lemma arrowKeyDiffs_keys (k : string) (delta : Q * Q) :
  arrowKeyDiffs k = Some delta ->
  In k ["ArrowUp"; "ArrowDown"; "ArrowLeft"; "ArrowRight"].
Proof.
  unfold arrowKeyDiffs.
  destruct (String.eqb_spec k "ArrowUp"); [subst; simpl; auto|].
  destruct (String.eqb_spec k "ArrowDown"); [subst; simpl; auto|].
  destruct (String.eqb_spec k "ArrowLeft"); [subst; simpl; auto|].
  destruct (String.eqb_spec k "ArrowRight"); [subst; simpl; auto|].
  discriminate.
Qed.

(** C5: an arrow key pressed on a focused, selected, draggable node
    (keyboard accessibility on, focus not in an input element, the key not
    one of the element selection keys) makes the node call
    [updatePositions] with exactly that key's unit delta (ArrowUp (0,-1),
    ArrowDown (0,1), ArrowLeft (-1,0), ArrowRight (1,0)); the update moves
    every selected draggable node of the store by that same delta
    (clamped to its extent) and leaves the others unchanged; and on any
    node, a key that is not one of the four arrow keys never produces a
    position update. *)
Theorem arrow_key_moves_selection_by_unit_delta {D : Type}
    (elementSelectionKeys : list string) (p : WrapNodeProps D) (ev : KeyboardEvent)
    (delta : Q * Q) (nodes : gmap string StoreNode)
    (Hfocus : isFocusable D p = true) (Hsel : selected D p = true)
    (Hdrag : isDraggable D p = true) (Ha11y : disableKeyboardA11y D p = false)
    (Hinput : inInputDOMNode ev = false)
    (Hnotsel : existsb (String.eqb (key ev)) elementSelectionKeys = false)
    (Harrow : In (key ev, delta)
                [("ArrowUp", (0, -1)); ("ArrowDown", (0, 1));
                 ("ArrowLeft", (-1, 0)); ("ArrowRight", (1, 0))]) :
  keyDownOnNode D elementSelectionKeys p ev
    = [SetAriaLiveMessage (key ev) (xPos D p) (yPos D p);
       UpdatePositions (fst delta) (snd delta) (shiftKey ev)] /\
  (forall i n, nodes !! i = Some n ->
     fst (updateNodePositions delta nodes) !! i
       = Some (if sn_selected n && sn_draggable n
               then set_position n
                      (clampPosition (fst (sn_positionAbsolute n) + fst delta,
                                      snd (sn_positionAbsolute n) + snd delta) (sn_extent n))
               else n)) /\
  (forall (sel' : list string) (p' : WrapNodeProps D) (ev' : KeyboardEvent) dx dy s,
     In (UpdatePositions dx dy s) (keyDownOnNode D sel' p' ev') ->
     In (key ev') ["ArrowUp"; "ArrowDown"; "ArrowLeft"; "ArrowRight"]).
Proof.
  split; [|split].
  - unfold keyDownOnNode, onKeyDown.
    rewrite Hfocus, Hinput, Hnotsel, Ha11y, Hdrag, Hsel. simpl.
    destruct ev as [k sh inp]; simpl in *.
    destruct Harrow as [H|[H|[H|[H|[]]]]]; injection H as <- <-; reflexivity.
  - intros i n Hn. unfold updateNodePositions; simpl.
    rewrite lookup_fmap, Hn. reflexivity.
  - intros sel' p' ev' dx dy s Hin.
    unfold keyDownOnNode, onKeyDown in Hin.
    destruct (isFocusable D p'); [|contradiction].
    destruct (inInputDOMNode ev'); [contradiction|].
    destruct (existsb (String.eqb (key ev')) sel' && isSelectable D p').
    { destruct Hin as [Hin|[]]; discriminate. }
    destruct (negb (disableKeyboardA11y D p') && isDraggable D p' && selected D p');
      [|contradiction].
    destruct (arrowKeyDiffs (key ev')) as [[x y]|] eqn:E; [|contradiction].
    eapply arrowKeyDiffs_keys; exact E.
Qed.

(** C6, as stated: every configuration the container accepts admits a
    zoom within [minZoom, maxZoom]. False: [ReactFlow] accepts
    [minZoom = 2] and [maxZoom = 1] without any check and forwards them
    to the graph view, and no zoom lies in the empty range [2, 1]. *)
Lemma zoom_range_can_be_empty :
  ~ (forall p : ReactFlowProps,
       exists z : Q, gv_minZoom (fst (ReactFlow p)) <= z <= gv_maxZoom (fst (ReactFlow p))).
Proof.
  intros H.
  destruct (H {| connectionMode := None; connectionRadius := None; selectionMode := None;
                 nodeOrigin := None; minZoom := Some 2; maxZoom := Some 1;
                 translateExtent := None; nodeExtent := None; snapToGrid := None;
                 snapGrid := None; defaultViewport := None |}) as [z [H1 H2]].
  simpl in H1, H2. lra.
Qed.

Lemma clampQ_bounds (v lo hi : Q) : lo <= hi -> lo <= clampQ v lo hi <= hi.
Proof.
  intros H. unfold clampQ. split.
  - apply Q.min_glb; [apply Q.le_max_r | exact H].
  - apply Q.le_min_r.
Qed.

Lemma interpolate_bounds (lo hi a b t : Q) :
  lo <= a <= hi -> lo <= b <= hi -> 0 <= t <= 1 -> lo <= interpolate a b t <= hi.
Proof.
  intros [Ha1 Ha2] [Hb1 Hb2] [Ht1 Ht2]. unfold interpolate.
  assert (E : a + t * (b - a) == a * (1 - t) + b * t) by ring.
  rewrite E.
  assert (H1 : lo * (1 - t) <= a * (1 - t)) by (apply Qmult_le_compat_r; lra).
  assert (H2 : lo * t <= b * t) by (apply Qmult_le_compat_r; lra).
  assert (H3 : a * (1 - t) <= hi * (1 - t)) by (apply Qmult_le_compat_r; lra).
  assert (H4 : b * t <= hi * t) by (apply Qmult_le_compat_r; lra).
  assert (E1 : lo * (1 - t) + lo * t == lo) by ring.
  assert (E2 : hi * (1 - t) + hi * t == hi) by ring.
  split; lra.
Qed.

Lemma applyViewportOp_in_bounds (gv : GraphViewProps) (v : Viewport) (op : ViewportOp) :
  gv_minZoom gv <= gv_maxZoom gv -> zoom_in_bounds gv v ->
  zoom_in_bounds gv (applyViewportOp gv v op).
Proof.
  intros Hr Hv. unfold zoom_in_bounds in *.
  destruct op; cbn [applyViewportOp vp_zoom]; unfold constrainZoom;
    try (apply clampQ_bounds; exact Hr); try exact Hv.
  apply interpolate_bounds; [exact Hv | apply clampQ_bounds; exact Hr |].
  apply clampQ_bounds. lra.
Qed.

Lemma viewportTrace_in_bounds (gv : GraphViewProps) (ops : list ViewportOp) (v : Viewport) :
  gv_minZoom gv <= gv_maxZoom gv -> zoom_in_bounds gv v ->
  List.Forall (zoom_in_bounds gv) (viewportTrace gv v ops).
Proof.
  intros Hr. revert v. induction ops as [|op rest IH]; intros v Hv; [constructor|].
  cbn [viewportTrace]. pose proof (applyViewportOp_in_bounds gv v op Hr Hv) as Hv'.
  constructor; [exact Hv' | apply IH; exact Hv'].
Qed.

(** C6, amended: the container accepts [minZoom > maxZoom] unchecked (see
    [zoom_range_can_be_empty]); for every configuration with
    [minZoom <= maxZoom], including any [defaultViewport] (one whose zoom
    lies outside the range included), the viewport zoom lies within
    [minZoom, maxZoom] at initialization and after every mutation of any
    sequence (set, zoom, pan, fit view, animation frames). With the
    default configuration the initial zoom is the default viewport's zoom
    1, within [0.5, 2]. *)
Theorem zoom_within_bounds_for_valid_range (p : ReactFlowProps)
    (Hrange : gv_minZoom (fst (ReactFlow p)) <= gv_maxZoom (fst (ReactFlow p)))
    (ops : list ViewportOp) :
  zoom_in_bounds (fst (ReactFlow p)) (initViewport (fst (ReactFlow p))) /\
  List.Forall (zoom_in_bounds (fst (ReactFlow p)))
    (viewportTrace (fst (ReactFlow p)) (initViewport (fst (ReactFlow p))) ops) /\
  vp_zoom (initViewport (fst (ReactFlow noProps))) == 1 /\
  zoom_in_bounds (fst (ReactFlow noProps)) (initViewport (fst (ReactFlow noProps))).
Proof.
  assert (Hinit : zoom_in_bounds (fst (ReactFlow p)) (initViewport (fst (ReactFlow p)))).
  { unfold zoom_in_bounds, initViewport. cbn [vp_zoom]. unfold constrainZoom.
    apply clampQ_bounds. exact Hrange. }
  split; [exact Hinit|]. split; [apply viewportTrace_in_bounds; assumption|].
  split; [reflexivity|].
  unfold zoom_in_bounds; simpl; split; unfold Qle; simpl; lia.
Qed.

(** C7: each recognized option is passed on unchanged to the graph view
    and/or the store updater (connectionMode, connectionRadius,
    snapToGrid and snapGrid to the store updater; selectionMode to the
    graph view; nodeOrigin, minZoom, maxZoom, translateExtent and
    nodeExtent to both), and an omitted option gets its default:
    connectionMode Strict, selectionMode Full, connectionRadius 20,
    minZoom 0.5, maxZoom 2, snapToGrid false, snapGrid [15,15],
    nodeOrigin [0,0], translateExtent the infinite extent (nodeExtent
    stays undefined). *)
Theorem config_forwarded_with_defaults (p : ReactFlowProps) :
  let '(gv, su) := ReactFlow p in
  su_connectionMode su = with_default Strict (connectionMode p) /\
  su_connectionRadius su = with_default 20 (connectionRadius p) /\
  gv_selectionMode gv = with_default Full (selectionMode p) /\
  gv_nodeOrigin gv = with_default (0, 0) (nodeOrigin p) /\
  su_nodeOrigin su = with_default (0, 0) (nodeOrigin p) /\
  gv_minZoom gv = with_default (1 # 2) (minZoom p) /\
  su_minZoom su = with_default (1 # 2) (minZoom p) /\
  gv_maxZoom gv = with_default 2 (maxZoom p) /\
  su_maxZoom su = with_default 2 (maxZoom p) /\
  gv_translateExtent gv = with_default infiniteExtent (translateExtent p) /\
  su_translateExtent su = with_default infiniteExtent (translateExtent p) /\
  gv_nodeExtent gv = nodeExtent p /\
  su_nodeExtent su = nodeExtent p /\
  su_snapToGrid su = with_default false (snapToGrid p) /\
  su_snapGrid su = with_default (15, 15) (snapGrid p).
Proof. simpl. repeat split. Qed.

(** [inner] lies within [outer]. *)
Definition box_within (inner outer : Box) : Prop :=
  bx1 outer <= bx1 inner /\ by1 outer <= by1 inner /\
  bx2 inner <= bx2 outer /\ by2 inner <= by2 outer.

Lemma box_contains_within (outer inner : Box) :
  box_within inner outer -> box_contains outer inner = true.
Proof.
  intros (H1 & H2 & H3 & H4). unfold box_contains.
  apply Qle_bool_iff in H1, H2, H3, H4. rewrite H1, H2, H3, H4. reflexivity.
Qed.

Lemma box_within_union (x a b : Box) :
  box_within x a \/ x = b -> box_within x (box_union a b).
Proof.
  unfold box_within, box_union; simpl.
  pose proof (Q.le_min_l (bx1 a) (bx1 b)) as m1. pose proof (Q.le_min_r (bx1 a) (bx1 b)) as m2.
  pose proof (Q.le_min_l (by1 a) (by1 b)) as m3. pose proof (Q.le_min_r (by1 a) (by1 b)) as m4.
  pose proof (Q.le_max_l (bx2 a) (bx2 b)) as m5. pose proof (Q.le_max_r (bx2 a) (bx2 b)) as m6.
  pose proof (Q.le_max_l (by2 a) (by2 b)) as m7. pose proof (Q.le_max_r (by2 a) (by2 b)) as m8.
  intros [(H1 & H2 & H3 & H4) | ->]; repeat split; lra.
Qed.

Lemma box_within_fold_union (bs : list Box) (acc x : Box) :
  box_within x acc \/ In x bs -> box_within x (fold_left box_union bs acc).
Proof.
  revert acc. induction bs as [|b bs IH]; intros acc H; simpl.
  - destruct H as [H|[]]. exact H.
  - apply IH. destruct H as [H|[->|H]].
    + left. apply box_within_union. left. exact H.
    + left. apply box_within_union. right. reflexivity.
    + right. exact H.
Qed.

Lemma box_within_margin (margin : Q) (x b : Box) :
  0 <= margin -> box_within x b -> box_within x (with_margin margin b).
Proof. unfold box_within, with_margin; simpl. intros Hm (H1 & H2 & H3 & H4). repeat split; lra. Qed.

Lemma box_within_resize (n : StoreNode) (x b : Box) :
  box_within x b -> box_within x (nodeBox (resize_to n b)).
Proof. unfold box_within, nodeBox, resize_to; simpl. intros (H1 & H2 & H3 & H4). repeat split; lra. Qed.

Lemma child_within_expanded_parent (margin : Q) (nodes : gmap string StoreNode)
    (c pid : string) (child parent : StoreNode) :
  0 <= margin -> nodes !! c = Some child -> sn_parentId child = Some pid ->
  box_within (nodeBox child)
    (nodeBox (resize_to parent (expandedParentBox margin nodes pid parent))).
Proof.
  intros Hm Hc Hp. apply box_within_resize. unfold expandedParentBox.
  apply box_within_margin; [exact Hm|].
  apply box_within_fold_union. right.
  apply (in_map (fun kv : string * StoreNode => nodeBox (snd kv)) _ (c, child)).
  apply filter_In. split.
  - apply list_elem_of_In. apply elem_of_map_to_list. exact Hc.
  - simpl. unfold is_child_of. rewrite Hp. apply String.eqb_refl.
Qed.

Lemma parents_ranked_insert (rank : string -> nat) (nodes : gmap string StoreNode)
    (k : string) (n n' : StoreNode) :
  parents_ranked rank nodes -> nodes !! k = Some n -> sn_parentId n' = sn_parentId n ->
  parents_ranked rank (<[k := n']> nodes).
Proof.
  intros Hr Hk Hp c m q Hc Hq.
  destruct (decide (k = c)) as [<-|Hne].
  - rewrite lookup_insert_eq in Hc. injection Hc as <-.
    rewrite Hp in Hq. exact (Hr k n q Hk Hq).
  - rewrite lookup_insert_ne in Hc by exact Hne. exact (Hr c m q Hc Hq).
Qed.

(** Parent expansion started at [c] only touches strict ancestors of
    [c], whose ranks are below [c]'s. *)
Lemma handleParentExpand_frame (margin : Q) (rank : string -> nat) (fuel : nat) :
  forall (nodes : gmap string StoreNode) (c k : string),
  parents_ranked rank nodes -> (rank c <= rank k)%nat ->
  handleParentExpand margin fuel nodes c !! k = nodes !! k.
Proof.
  induction fuel as [|f IH]; intros nodes c k Hr Hk; simpl; [reflexivity|].
  destruct (nodes !! c) as [child|] eqn:Hc; [|reflexivity].
  destruct (sn_parentId child) as [pid|] eqn:Hp; [|reflexivity].
  destruct (nodes !! pid) as [parent|] eqn:Hpp; [|reflexivity].
  destruct (box_contains (nodeBox parent) (nodeBox child)); [reflexivity|].
  pose proof (Hr c child pid Hc Hp) as Hlt.
  rewrite IH.
  - apply lookup_insert_ne. intros ->. lia.
  - eapply parents_ranked_insert; [exact Hr | exact Hpp | reflexivity].
  - lia.
Qed.

(** After parent expansion started at a child, the child lies within
    its parent's box. *)
Lemma handleParentExpand_child_within (margin : Q) (rank : string -> nat) (f : nat)
    (nodes : gmap string StoreNode) (c pid : string) (child parent : StoreNode) :
  0 <= margin -> parents_ranked rank nodes ->
  nodes !! c = Some child -> sn_parentId child = Some pid -> nodes !! pid = Some parent ->
  exists parent',
    handleParentExpand margin (S f) nodes c !! pid = Some parent' /\
    box_contains (nodeBox parent') (nodeBox child) = true.
Proof.
  intros Hm Hr Hc Hp Hpp. simpl. rewrite Hc, Hp, Hpp.
  destruct (box_contains (nodeBox parent) (nodeBox child)) eqn:E.
  - exists parent. split; [exact Hpp | exact E].
  - rewrite (handleParentExpand_frame margin rank f _ pid pid).
    + rewrite lookup_insert_eq. eexists. split; [reflexivity|].
      apply box_contains_within. eapply child_within_expanded_parent; eauto.
    + eapply parents_ranked_insert; [exact Hr | exact Hpp | reflexivity].
    + lia.
Qed.

(** Parent expansion does nothing when the child already fits. *)
Lemma handleParentExpand_fits (margin : Q) (f : nat) (nodes : gmap string StoreNode)
    (c : string) (child : StoreNode) :
  nodes !! c = Some child ->
  (forall pid parent, sn_parentId child = Some pid -> nodes !! pid = Some parent ->
     box_contains (nodeBox parent) (nodeBox child) = true) ->
  handleParentExpand margin f nodes c = nodes.
Proof.
  intros Hc Hfit. destruct f as [|f]; simpl; [reflexivity|].
  rewrite Hc. destruct (sn_parentId child) as [pid|] eqn:Hp; [|reflexivity].
  destruct (nodes !! pid) as [parent|] eqn:Hpp; [|reflexivity].
  rewrite (Hfit pid parent eq_refl Hpp). reflexivity.
Qed.

Lemma parents_ranked_b_sound (rank : string -> nat) (nodes : gmap string StoreNode) :
  parents_ranked_b rank nodes = true -> parents_ranked rank nodes.
Proof.
  intros Hb c n pid Hc Hp. unfold parents_ranked_b in Hb.
  rewrite forallb_forall in Hb.
  specialize (Hb (c, n)). simpl in Hb. rewrite Hp in Hb.
  apply Nat.ltb_lt. apply Hb.
  apply list_elem_of_In. apply elem_of_map_to_list. exact Hc.
Qed.

(** C8: [updateNodeDimensions] is idempotent. When the parent links have
    no cycle (some rank decreases along every parent link) and the expansion margin is non-negative, reporting the same
    measurement for a node twice in a row (as a repeated [forceUpdate]
    report does) leaves the node map equal to the map after reporting it
    once, including the parent expansion the first report triggered. *)
Theorem updateNodeDimensions_idempotent (margin : Q) (rank : string -> nat)
    (nodes : gmap string StoreNode) (u : NodeDimensionUpdate)
    (Hm : 0 <= margin) (Hrb : parents_ranked_b rank nodes = true) :
  updateNodeDimensions margin (updateNodeDimensions margin nodes [u]) [u]
    = updateNodeDimensions margin nodes [u].
Proof.
  pose proof (parents_ranked_b_sound rank nodes Hrb) as Hr.
  unfold updateNodeDimensions; simpl.
  destruct u as [i w h].
  unfold updateNodeDimension at 2 3; simpl.
  destruct (nodes !! i) as [n|] eqn:Hn.
  2:{ unfold updateNodeDimension; simpl. rewrite Hn. reflexivity. }
  set (n' := set_measured n w h).
  set (M1 := <[i := n']> nodes).
  assert (Hr1 : parents_ranked rank M1)
    by (eapply parents_ranked_insert; [exact Hr | exact Hn | reflexivity]).
  assert (HM1 : M1 !! i = Some n') by apply lookup_insert_eq.
  assert (HS1 : handleParentExpand margin (size nodes) M1 i !! i = Some n').
  { rewrite (handleParentExpand_frame margin rank _ _ i i Hr1); [exact HM1 | lia]. }
  assert (Hsz : size nodes <> 0%nat) by (eapply map_size_ne_0_lookup_2; rewrite Hn; eauto).
  destruct (size nodes) as [|f] eqn:Esz; [contradiction|].
  set (S1 := handleParentExpand margin (S f) M1 i) in *.
  unfold updateNodeDimension; cbn [du_id du_width du_height]. rewrite HS1.
  assert (Hset : set_measured n' w h = n') by reflexivity.
  rewrite Hset, (insert_id S1 i n' HS1).
  apply handleParentExpand_fits with (child := n'); [exact HS1|].
  intros pid parent Hp Hpp. unfold S1 in Hpp.
  destruct (M1 !! pid) as [parent0|] eqn:Hpp0.
  - destruct (handleParentExpand_child_within margin rank f M1 i pid n' parent0
                Hm Hr1 HM1 Hp Hpp0) as [parent' [Hl Hc]].
    rewrite Hl in Hpp. injection Hpp as <-. exact Hc.
  - exfalso. simpl in Hpp. rewrite HM1, Hp, Hpp0 in Hpp. congruence.
Qed.

Lemma arrow_key_moves_selection_by_unit_delta_witness :
  isFocusable unit sample_node_props = true /\
  keyDownOnNode unit ["Enter"; " "; "Escape"] sample_node_props arrow_up_event
    = [SetAriaLiveMessage "ArrowUp" 10 20; UpdatePositions 0 (-1) false].
Proof.
  split; [reflexivity|].
  destruct (arrow_key_moves_selection_by_unit_delta ["Enter"; " "; "Escape"]
              sample_node_props arrow_up_event (0, -1) sample_store
              eq_refl eq_refl eq_refl eq_refl eq_refl eq_refl
              ltac:(simpl; left; reflexivity)) as [H _].
  exact H.
Defined.

Lemma updateNodeDimensions_idempotent_witness :
  parents_ranked_b sample_rank sample_store = true /\
  updateNodeDimensions 10 (updateNodeDimensions 10 sample_store [grow_child]) [grow_child]
    = updateNodeDimensions 10 sample_store [grow_child].
Proof.
  split; [vm_compute; reflexivity|].
  apply (updateNodeDimensions_idempotent 10 sample_rank sample_store grow_child).
  - unfold Qle; simpl; lia.
  - vm_compute. reflexivity.
Defined.


Lemma findNodeOrEdge_cons_cons (x y : HTMLElement) (r : ElementChain) (l : HTMLElement) :
  findNodeOrEdge (x :: y :: r) l =
  if truthy (eltype x) then Some x
  else if same_element y l then None else findNodeOrEdge (y :: r) l.
Proof. reflexivity. Qed.

Lemma find_first_match {A} (f : A -> bool) (l : list A) :
  match List.find f l with
  | Some e => exists before after, l = before ++ e :: after /\ f e = true /\
              List.Forall (fun x => f x = false) before
  | None => List.Forall (fun x => f x = false) l
  end.
Proof.
  induction l as [|x r IH]; [constructor|]. cbn [List.find].
  destruct (f x) eqn:Ex.
  - exists [], r. auto.
  - destruct (List.find f r) as [e|] eqn:Er.
    + destruct IH as (before & after & -> & He & Hb).
      exists (x :: before), after. auto.
    + constructor; assumption.
Qed.

(** [findNodeOrEdge] examines [event.target] first, even when it is the
    listening element itself, then the target's ancestors up to (and
    excluding) the first one that is the listening element. It returns the
    first examined element whose [data-eltype] is non-empty (of any value):
    every element examined before it has an empty or missing
    [data-eltype]. It returns [null] exactly when no examined element has
    one. *)
Theorem findNodeOrEdge_first_annotated_examined (chain : ElementChain) (l : HTMLElement) :
  match findNodeOrEdge chain l with
  | Some e => exists before after, searched_chain chain l = before ++ e :: after /\
              truthy (eltype e) = true /\
              List.Forall (fun x => truthy (eltype x) = false) before
  | None => List.Forall (fun x => truthy (eltype x) = false) (searched_chain chain l)
  end.
Proof.
  rewrite findNodeOrEdge_searched_chain. unfold nearest_annotated.
  apply find_first_match.
Qed.

Lemma findNodeOrEdge_through_unannotated (inner outer : ElementChain) (n l : HTMLElement)
    (Hinner : forall e, In e inner -> truthy (eltype e) = false /\ same_element e l = false)
    (Hn : truthy (eltype n) = true) (Hnl : same_element n l = false) :
  findNodeOrEdge (inner ++ n :: outer) l = Some n.
Proof.
  induction inner as [|x r IH].
  - destruct outer; simpl; rewrite Hn; reflexivity.
  - destruct (Hinner x (or_introl eq_refl)) as [Hx _].
    assert (IH' : findNodeOrEdge (r ++ n :: outer) l = Some n)
      by (apply IH; intros e He; apply Hinner; right; exact He).
    destruct r as [|y r'].
    + change ([x] ++ n :: outer) with (x :: n :: outer). rewrite findNodeOrEdge_cons_cons, Hx, Hnl. exact IH'.
    + destruct (Hinner y (or_intror (or_introl eq_refl))) as [_ Hy].
      change ((x :: y :: r') ++ n :: outer) with (x :: y :: (r' ++ n :: outer)).
      rewrite findNodeOrEdge_cons_cons, Hx, Hy. exact IH'.
Qed.

(** A click anywhere inside a rendered node (on the node [div] or on
    unannotated elements inside it) calls the node click callback with
    [JSON.parse] of the [data-nodedata] the wrapper serialized from the
    store's node, and nothing when that attribute is empty or absent. *)
Theorem click_inside_rendered_node_calls_onNodeClick {D Rec : Type}
    (JSON_parse : string -> Rec) (ARIA_NODE_DESC_KEY : string)
    (dataToAttribute : option (NodeInternal D) -> string -> option string)
    (p : WrapNodeProps D) (dragging : bool) (nodeInternals : string -> option (NodeInternal D))
    (div : NodeDiv D) (r : nat) (inner outer : ElementChain) (listener : HTMLElement)
    (onNodeClick : HandlerRef) (onEdgeClick : option HandlerRef)
    (Hrender : NodeWrapper D ARIA_NODE_DESC_KEY dataToAttribute p dragging nodeInternals = Some div)
    (Hinner : forallb (fun e => negb (truthy (eltype e)) && negb (same_element e listener)) inner = true)
    (Hr : Nat.eqb r (el_ref listener) = false) :
  eventHandlersDecorator JSON_parse (Some onNodeClick) onEdgeClick
    {| target := inner ++ rendered_element r div :: outer; currentTarget := listener |}
  = with_truthy (dataToAttribute (nodeInternals (id D p)) "node")
      (fun s => [CallNodeHandler onNodeClick (JSON_parse s)]).
Proof.
  unfold NodeWrapper in Hrender. destruct (hidden D p); [discriminate|].
  injection Hrender as <-.
  unfold eventHandlersDecorator. cbn [target currentTarget is_defined negb andb].
  rewrite (findNodeOrEdge_through_unannotated inner outer); [reflexivity| |reflexivity|exact Hr].
  intros e He. rewrite forallb_forall in Hinner. specialize (Hinner e He).
  apply andb_true_iff in Hinner as [H1 H2]. apply negb_true_iff in H1, H2. auto.
Qed.

Lemma eventHandlersDecorator_old_callbacks {Rec : Type} (JSON_parse : string -> Rec)
    (nodeCallback edgeCallback : option HandlerRef) (event : MouseEvent) :
  callbacks (eventHandlersDecorator_old JSON_parse nodeCallback edgeCallback event)
    = eventHandlersDecorator JSON_parse nodeCallback edgeCallback event.
Proof.
  unfold eventHandlersDecorator_old, eventHandlersDecorator.
  destruct (negb (is_defined nodeCallback) && negb (is_defined edgeCallback)); [done|].
  pose proof (findNodeOrEdge_old_result (Rec:=Rec) (target event) (currentTarget event)) as Hf.
  destruct (findNodeOrEdge_old (target event) (currentTarget event)) as [found logs].
  simpl in Hf. subst found.
  rewrite callbacks_app, callbacks_console_logs. simpl.
  destruct (findNodeOrEdge (target event) (currentTarget event)) as [data|]; [|done].
  destruct (is_eltype (eltype data) "node"), nodeCallback as [cb|],
    (is_eltype (eltype data) "edge"), edgeCallback as [cb'|];
    first [done | unfold with_truthy; repeat case_match; reflexivity].
Qed.

(** In the original container, moving the pointer from a node's [div] to
    an unannotated element inside the same node calls the node leave
    callback and then the node enter callback, both with that node. *)
Theorem old_container_leave_enter_within_node {Rec : Type} (JSON_parse : string -> Rec)
    (p : HoverProps) (wrapper nodeEl child : HTMLElement) (above : ElementChain)
    (v : string) (leave enter : HandlerRef)
    (Hnode : eltype nodeEl = Some "node") (Hdata : nodedata nodeEl = Some v)
    (Hv : String.eqb v "" = false)
    (Hchild : truthy (eltype child) = false) (Hnw : same_element nodeEl wrapper = false)
    (Hleave : onNodeMouseLeave p = Some leave) (Henter : onNodeMouseEnter p = Some enter) :
  callbacks (pointer_move_old JSON_parse p wrapper (nodeEl :: above) (child :: nodeEl :: above))
    = [CallNodeHandler leave (JSON_parse v); CallNodeHandler enter (JSON_parse v)].
Proof.
  unfold pointer_move_old. rewrite callbacks_app, !eventHandlersDecorator_old_callbacks.
  rewrite Hleave, Henter. unfold eventHandlersDecorator. cbn [target currentTarget].
  assert (Hf1 : findNodeOrEdge (nodeEl :: above) wrapper = Some nodeEl)
    by (destruct above; simpl; rewrite Hnode; reflexivity).
  assert (Hf2 : findNodeOrEdge (child :: nodeEl :: above) wrapper = Some nodeEl)
    by (rewrite findNodeOrEdge_cons_cons, Hchild, Hnw; exact Hf1).
  rewrite Hf1, Hf2. simpl. rewrite Hnode, Hdata. simpl. rewrite Hv. reflexivity.
Qed.


Lemma same_ref_refl (a : option HandlerRef) : same_ref a a = true.
Proof. destruct a; simpl; [apply Nat.eqb_refl|reflexivity]. Qed.

Lemma render_cached {Rec : Type} (p : HoverProps) (s : FlowState Rec) (c : HoverClosure Rec) :
  onElMouseEnter_memo s = Some ((onNodeMouseEnter p, onEdgeMouseEnter p), c) -> render p s = s.
Proof. intros H. unfold render. rewrite H. simpl. rewrite !same_ref_refl. reflexivity. Qed.

Lemma mount_state {Rec : Type} (p : HoverProps) :
  onElMouseEnter_memo (mount (Rec:=Rec) p)
    = Some ((onNodeMouseEnter p, onEdgeMouseEnter p), mount_closure p) /\
  currentHovered (mount (Rec:=Rec) p) = noHovered.
Proof. split; reflexivity. Qed.

Lemma dispatch_cached {Rec : Type} (JSON_parse : string -> Rec) (rec_id : Rec -> string)
    (p : HoverProps) (s : FlowState Rec) (ev : MouseEvent) :
  onElMouseEnter_memo s = Some ((onNodeMouseEnter p, onEdgeMouseEnter p), mount_closure p) ->
  let '(es, upd) := hoverHandler JSON_parse rec_id (mount_closure p) ev in
  dispatch_mouseover JSON_parse rec_id p s ev
    = (es, {| currentHovered := match upd with Some h => h | None => currentHovered s end;
              onElMouseEnter_memo := onElMouseEnter_memo s |}).
Proof.
  intros Hm. unfold dispatch_mouseover. rewrite Hm.
  destruct (hoverHandler JSON_parse rec_id (mount_closure p) ev) as [es upd].
  f_equal. destruct upd as [h|].
  - rewrite (render_cached p _ (mount_closure p)); [reflexivity|]. reflexivity.
  - rewrite (render_cached p s (mount_closure p) Hm). destruct s; simpl in *; congruence.
Qed.

Lemma mount_closure_handler {Rec : Type} (JSON_parse : string -> Rec) (rec_id : Rec -> string)
    (p : HoverProps) (ev : MouseEvent) :
  forallb (is_enter_call p) (fst (hoverHandler JSON_parse rec_id (mount_closure p) ev)) = true /\
  (forall h, snd (hoverHandler JSON_parse rec_id (mount_closure p) ev) = Some h ->
     is_defined (hov_el h) = true).
Proof.
  unfold hoverHandler, mount_closure. cbn [captured nodeEnterCallback edgeEnterCallback
    nodeLeaveCallback edgeLeaveCallback noHovered hov_elType hov_el is_eltype negb].
  repeat case_match; simplify_eq; simpl; split; try done.
  all: first [ intros ? [= <-]; reflexivity
             | match goal with H : ?x = Some _ |- context [match ?x with _ => _ end] =>
                 rewrite H, Nat.eqb_refl; reflexivity end ].
Qed.

Lemma run_mouseovers_app {Rec : Type} (JSON_parse : string -> Rec) (rec_id : Rec -> string)
    (p : HoverProps) (s : FlowState Rec) (evs1 evs2 : list MouseEvent) :
  run_mouseovers JSON_parse rec_id p s (evs1 ++ evs2)
  = let '(es1, s1) := run_mouseovers JSON_parse rec_id p s evs1 in
    let '(es2, s2) := run_mouseovers JSON_parse rec_id p s1 evs2 in
    (es1 ++ es2, s2).
Proof.
  revert s. induction evs1 as [|ev r IH]; intros s; simpl.
  - destruct (run_mouseovers JSON_parse rec_id p s evs2); reflexivity.
  - destruct (dispatch_mouseover JSON_parse rec_id p s ev) as [es s1].
    rewrite IH.
    destruct (run_mouseovers JSON_parse rec_id p s1 r) as [es1 s2].
    destruct (run_mouseovers JSON_parse rec_id p s2 evs2) as [es2 s3].
    rewrite app_assoc. reflexivity.
Qed.

Lemma run_cached {Rec : Type} (JSON_parse : string -> Rec) (rec_id : Rec -> string)
    (p : HoverProps) (evs : list MouseEvent) : forall (s : FlowState Rec),
  onElMouseEnter_memo s = Some ((onNodeMouseEnter p, onEdgeMouseEnter p), mount_closure p) ->
  let '(es, s') := run_mouseovers JSON_parse rec_id p s evs in
  onElMouseEnter_memo s' = onElMouseEnter_memo s /\
  forallb (is_enter_call p) es = true /\
  (is_defined (hov_el (currentHovered s)) = true -> is_defined (hov_el (currentHovered s')) = true).
Proof.
  induction evs as [|ev r IH]; intros s Hm; simpl; [auto|].
  pose proof (dispatch_cached JSON_parse rec_id p s ev Hm) as Hd.
  destruct (mount_closure_handler JSON_parse rec_id p ev) as [Hcalls Hupd].
  destruct (hoverHandler JSON_parse rec_id (mount_closure p) ev) as [es upd].
  rewrite Hd. simpl in Hcalls, Hupd.
  set (s1 := {| currentHovered := match upd with Some h => h | None => currentHovered s end;
                onElMouseEnter_memo := onElMouseEnter_memo s |}).
  specialize (IH s1 Hm).
  destruct (run_mouseovers JSON_parse rec_id p s1 r) as [es2 s2].
  destruct IH as [Hm2 [Hc2 Hdef2]].
  split; [exact Hm2|]. split; [rewrite forallb_app, Hcalls, Hc2; reflexivity|].
  intros Hdef. apply Hdef2. unfold s1. simpl.
  destruct upd as [h|]; [apply Hupd; reflexivity|exact Hdef].
Qed.

(** In the rewritten container, with props that do not change, every
    callback the [onMouseOver] handler calls over any sequence of events is
    one of the two enter callbacks: [onNodeMouseLeave] and
    [onEdgeMouseLeave] are never called (unless they are the same function
    as an enter callback). *)
Theorem hover_leave_callbacks_never_called {Rec : Type} (JSON_parse : string -> Rec)
    (rec_id : Rec -> string) (p : HoverProps) (evs : list MouseEvent) :
  forallb (is_enter_call p) (fst (run_mouseovers JSON_parse rec_id p (mount p) evs)) = true.
Proof.
  pose proof (run_cached JSON_parse rec_id p evs (mount p) (proj1 (mount_state p))) as H.
  destruct (run_mouseovers JSON_parse rec_id p (mount p) evs) as [es s']. apply H.
Qed.

(** In the rewritten container, with props that do not change, once an
    element has been recorded in [currentHovered], no later mouseover
    (also one over the pane) clears it. *)
Theorem hover_state_never_cleared {Rec : Type} (JSON_parse : string -> Rec)
    (rec_id : Rec -> string) (p : HoverProps) (evs1 evs2 : list MouseEvent)
    (Hdef : is_defined (hov_el (currentHovered
              (snd (run_mouseovers JSON_parse rec_id p (mount p) evs1)))) = true) :
  is_defined (hov_el (currentHovered
    (snd (run_mouseovers JSON_parse rec_id p (mount p) (evs1 ++ evs2))))) = true.
Proof.
  rewrite run_mouseovers_app.
  pose proof (run_cached JSON_parse rec_id p evs1 (mount p) (proj1 (mount_state p))) as H1.
  destruct (run_mouseovers JSON_parse rec_id p (mount p) evs1) as [es1 s1].
  destruct H1 as [Hm1 _]. rewrite (proj1 (mount_state p)) in Hm1.
  pose proof (run_cached JSON_parse rec_id p evs2 s1 Hm1) as H2.
  destruct (run_mouseovers JSON_parse rec_id p s1 evs2) as [es2 s2].
  simpl in *. apply H2. exact Hdef.
Qed.

(** For every closure of [hoverEventHandlersDecorator] with a node enter
    callback: each mouseover whose nearest annotated element is a node with
    non-empty node data calls that enter callback with the parsed node, as
    the last call, and records the node as hovered. At most one leave call
    comes before it. There is none when nothing was hovered, or when the
    hovered element is a node with the same [id]. *)
Theorem hover_enter_on_every_node_mouseover {Rec : Type} (JSON_parse : string -> Rec)
    (rec_id : Rec -> string) (c : HoverClosure Rec) (ev : MouseEvent)
    (data : HTMLElement) (v : string) (enter : HandlerRef)
    (Henter : nodeEnterCallback c = Some enter)
    (Hfound : findNodeOrEdge (target ev) (currentTarget ev) = Some data)
    (Htype : eltype data = Some "node") (Hdata : nodedata data = Some v)
    (Hv : String.eqb v "" = false) :
  exists leave,
    hoverHandler JSON_parse rec_id c ev
      = (leave ++ [CallNodeHandler enter (JSON_parse v)],
         Some {| hov_elType := Some "node"; hov_el := Some (JSON_parse v) |}) /\
    (length leave <= 1)%nat /\
    (forall prev, hov_el (captured c) = Some prev ->
       hov_elType (captured c) = Some "node" ->
       rec_id prev = rec_id (JSON_parse v) -> leave = []) /\
    (hov_el (captured c) = None -> leave = []).
Proof.
  unfold hoverHandler. rewrite Henter, Hfound, Htype. simpl. rewrite Hdata, Hv.
  eexists. split; [reflexivity|].
  destruct (captured c) as [t el]; simpl.
  destruct el as [prev|].
  - destruct t as [t|]; simpl.
    + destruct (String.eqb_spec t "node") as [->|Hne]; simpl.
      * destruct (nodeLeaveCallback c) as [cb|]; simpl.
        -- split; [destruct (String.eqb_spec (rec_id (JSON_parse v)) (rec_id prev)); simpl; lia|].
           split; [|discriminate].
           intros prev' [= <-] _ Hid. rewrite Hid, String.eqb_refl. reflexivity.
        -- split; [simpl; lia|]. split; [reflexivity|discriminate].
      * destruct (edgeLeaveCallback c) as [cb|]; simpl.
        -- split; [lia|]. split; [intros ? ? [= Ht]; congruence|discriminate].
        -- destruct (nodeLeaveCallback c) as [cb|]; simpl.
           ++ split; [destruct (String.eqb (rec_id (JSON_parse v)) (rec_id prev)); simpl; lia|].
              split; [intros ? ? [= Ht]; congruence|discriminate].
           ++ split; [simpl; lia|]. split; [intros ? ? [= Ht]; congruence|discriminate].
    + destruct (edgeLeaveCallback c) as [cb|]; simpl.
      * split; [lia|]. split; [intros ? ? [=]|discriminate].
      * destruct (nodeLeaveCallback c) as [cb|]; simpl.
        -- split; [destruct (String.eqb (rec_id (JSON_parse v)) (rec_id prev)); simpl; lia|].
           split; [intros ? ? [=]|discriminate].
        -- split; [simpl; lia|]. split; [intros ? ? [=]|discriminate].
  - destruct (negb (is_eltype t "node")), (edgeLeaveCallback c); simpl;
      repeat split; try lia; try discriminate; reflexivity.
Qed.

(** A mouseover with no annotated element below the listener (the pane),
    with an enter callback given: when a node is recorded as hovered, the
    node leave callback is called with it and [currentHovered] is reset. The
    same holds for an edge and the edge leave callback. Without the leave
    callback of that kind nothing happens and the record stays. With
    nothing recorded nothing happens. *)
Theorem hover_leave_to_unannotated {Rec : Type} (JSON_parse : string -> Rec)
    (rec_id : Rec -> string) (c : HoverClosure Rec) (ev : MouseEvent) (prev : Rec)
    (Henter : is_defined (nodeEnterCallback c) || is_defined (edgeEnterCallback c) = true)
    (Hnone : findNodeOrEdge (target ev) (currentTarget ev) = None) :
  (captured c = {| hov_elType := Some "node"; hov_el := Some prev |} ->
   hoverHandler JSON_parse rec_id c ev
     = match nodeLeaveCallback c with
       | Some cb => ([CallNodeHandler cb prev], Some noHovered)
       | None => ([], None)
       end) /\
  (captured c = {| hov_elType := Some "edge"; hov_el := Some prev |} ->
   hoverHandler JSON_parse rec_id c ev
     = match edgeLeaveCallback c with
       | Some cb => ([CallEdgeHandler cb prev], Some noHovered)
       | None => ([], None)
       end) /\
  (hov_elType (captured c) = None -> hoverHandler JSON_parse rec_id c ev = ([], None)).
Proof.
  assert (Hgo : negb (is_defined (nodeEnterCallback c)) && negb (is_defined (edgeEnterCallback c)) = false)
    by (destruct (is_defined (nodeEnterCallback c)), (is_defined (edgeEnterCallback c)); done).
  unfold hoverHandler. rewrite Hgo, Hnone.
  split; [|split].
  - intros ->. simpl. repeat case_match; reflexivity.
  - intros ->. simpl. repeat case_match; reflexivity.
  - intros Ht. rewrite Ht. simpl. repeat case_match; reflexivity.
Qed.

(** Moving from a recorded edge onto a node whose [id] differs, with no
    edge leave callback but a node leave callback, calls the node leave
    callback with the edge record, then the node enter callback. *)
Theorem hover_node_leave_called_with_edge {Rec : Type} (JSON_parse : string -> Rec)
    (rec_id : Rec -> string) (c : HoverClosure Rec) (ev : MouseEvent)
    (data : HTMLElement) (v : string) (edge : Rec) (enter leave : HandlerRef)
    (Hcap : captured c = {| hov_elType := Some "edge"; hov_el := Some edge |})
    (Henter : nodeEnterCallback c = Some enter)
    (Hleave : nodeLeaveCallback c = Some leave)
    (Hnoedge : edgeLeaveCallback c = None)
    (Hfound : findNodeOrEdge (target ev) (currentTarget ev) = Some data)
    (Htype : eltype data = Some "node") (Hdata : nodedata data = Some v)
    (Hv : String.eqb v "" = false)
    (Hid : String.eqb (rec_id (JSON_parse v)) (rec_id edge) = false) :
  hoverHandler JSON_parse rec_id c ev
    = ([CallNodeHandler leave edge; CallNodeHandler enter (JSON_parse v)],
       Some {| hov_elType := Some "node"; hov_el := Some (JSON_parse v) |}).
Proof.
  unfold hoverHandler. rewrite Henter, Hfound, Htype, Hcap. simpl.
  rewrite Hdata, Hv, Hnoedge, Hleave, Hid. reflexivity.
Qed.

(** With [disableKeyboardA11y], [onKeyDown] never moves the node nor sets
    an aria message. Outside input elements, a selection key on a
    selectable node still calls [handleNodeClick], unselecting exactly for
    Escape; any other key does nothing. *)
Theorem keyboard_a11y_disabled_keeps_selection_keys {D : Type}
    (elementSelectionKeys : list string) (p : WrapNodeProps D) (ev : KeyboardEvent)
    (Hdis : disableKeyboardA11y D p = true) :
  onKeyDown D elementSelectionKeys p ev
    = if inInputDOMNode ev then []
      else if existsb (String.eqb (key ev)) elementSelectionKeys && isSelectable D p
      then [HandleNodeClick (id D p) (String.eqb (key ev) "Escape")]
      else [].
Proof.
  unfold onKeyDown. rewrite Hdis. simpl.
  destruct (inInputDOMNode ev); [reflexivity|].
  destruct (existsb (String.eqb (key ev)) elementSelectionKeys && isSelectable D p); reflexivity.
Qed.

Lemma dimensionsEffect_spec {D : Type} (t : string) (s g : option Position) (p : WrapNodeProps D) :
  dimensionsEffect D t s g p
    = if bool_decide (t = type D p /\ s = sourcePosition D p /\ g = targetPosition D p)
      then None else Some (id D p).
Proof.
  unfold dimensionsEffect.
  destruct (String.eqb_spec t (type D p)) as [Ht|Ht];
    destruct s as [a|], (sourcePosition D p) as [b|], g as [c|], (targetPosition D p) as [d|];
    simpl; repeat case_bool_decide; simpl; try reflexivity; exfalso; naive_solver.
Qed.

Lemma dimensionsEffectBody_visible {D : Type} (prev p : WrapNodeProps D)
    (Hvis : hidden D p = false) :
  dimensionsEffectBody (refs_of prev) p
    = (refs_of p, dimensionsEffect D (type D prev) (sourcePosition D prev) (targetPosition D prev) p).
Proof.
  unfold dimensionsEffectBody. rewrite Hvis. cbn [refs_of prevTypeRef prevSourceRef prevTargetRef].
  rewrite dimensionsEffect_spec.
  case_bool_decide as Heq.
  - destruct Heq as (E1 & E2 & E3). unfold refs_of. rewrite E1, E2, E3. reflexivity.
  - unfold refs_of. f_equal. f_equal;
      [destruct (String.eqb_spec (type D prev) (type D p))
      |case_bool_decide|case_bool_decide]; simpl; congruence.
Qed.

Lemma dimensionsEffectRun_visible {D : Type} (ps : list (WrapNodeProps D)) :
  forall (prev : WrapNodeProps D) (s : DimEffectState),
  ds_refs s = refs_of prev -> ds_deps s = effect_deps prev ->
  Forall (fun p => hidden D p = false) ps ->
  dimensionsEffectRun s ps = changes_from_previous prev ps.
Proof.
  induction ps as [|p r IH]; intros prev s Hr Hd Hvis; [reflexivity|].
  inversion Hvis as [|? ? Hp Hrest]; subst.
  simpl. unfold dimensionsEffectRender.
  case_bool_decide as Heq.
  - rewrite Hd in Heq. pose proof Heq as Heq'.
    unfold effect_deps in Heq. injection Heq as Hi Ht Hs Hg.
    rewrite dimensionsEffect_spec, bool_decide_true by auto.
    f_equal. apply IH; [rewrite Hr; unfold refs_of; congruence|rewrite Hd; symmetry; exact Heq'|exact Hrest].
  - rewrite Hr, dimensionsEffectBody_visible by exact Hp.
    f_equal. apply IH; [reflexivity|reflexivity|exact Hrest].
Qed.

(** While a node stays visible, the wrapper forces a dimension update
    ([updateNodeDimensions] with [forceUpdate: true]) at a render exactly
    when its type, source position or target position differs from the
    render before. Mounting forces none. Changing only the [id] forces
    none. *)
Theorem forced_dimension_updates_follow_changes {D : Type}
    (p0 : WrapNodeProps D) (ps : list (WrapNodeProps D))
    (Hvisb : forallb (fun p => negb (hidden D p)) (p0 :: ps) = true) :
  nodeLifecycle p0 ps = None :: changes_from_previous p0 ps.
Proof.
  assert (Hvis : Forall (fun p => hidden D p = false) (p0 :: ps)).
  { apply List.Forall_forall. intros x Hx. rewrite forallb_forall in Hvisb.
    apply negb_true_iff. exact (Hvisb x Hx). }
  inversion Hvis as [|? ? H0 Hrest]; subst.
  unfold nodeLifecycle, dimensionsEffectMount.
  change {| prevTypeRef := type D p0; prevSourceRef := sourcePosition D p0;
            prevTargetRef := targetPosition D p0 |} with (refs_of p0).
  rewrite dimensionsEffectBody_visible by exact H0.
  rewrite dimensionsEffect_spec, bool_decide_true by auto.
  f_equal. apply dimensionsEffectRun_visible; [reflexivity|reflexivity|exact Hrest].
Qed.

(** A change of type or handle positions made while the node is hidden
    never forces a dimension update: not at that render, and not when the
    node is shown again with the same type, positions and [id]. *)
Theorem change_while_hidden_never_forced {D : Type} (p0 p1 p2 : WrapNodeProps D)
    (Hhid : hidden D p1 = true) (Hdeps : effect_deps p2 = effect_deps p1) :
  nodeLifecycle p0 [p1; p2] = [None; None; None].
Proof.
  unfold nodeLifecycle, dimensionsEffectMount.
  assert (Hm : snd (dimensionsEffectBody (refs_of p0) p0) = None).
  { destruct (hidden D p0) eqn:Hh.
    - unfold dimensionsEffectBody. rewrite Hh. reflexivity.
    - rewrite dimensionsEffectBody_visible by exact Hh.
      simpl. rewrite dimensionsEffect_spec, bool_decide_true by auto. reflexivity. }
  change {| prevTypeRef := type D p0; prevSourceRef := sourcePosition D p0;
            prevTargetRef := targetPosition D p0 |} with (refs_of p0).
  destruct (dimensionsEffectBody (refs_of p0) p0) as [r0 u0]. simpl in Hm. subst u0.
  simpl. unfold dimensionsEffectRender at 1. simpl.
  case_bool_decide as E1.
  - simpl. unfold dimensionsEffectRender. simpl.
    rewrite bool_decide_true by congruence. reflexivity.
  - unfold dimensionsEffectBody. rewrite Hhid. simpl.
    unfold dimensionsEffectRender. simpl. rewrite bool_decide_true by congruence. reflexivity.
Qed.

(** A DOM [onClick] given to the container: the original container's
    wrapper [div] overrides it with its own click handler, so it is never
    called. The rewritten container calls it first, then dispatches to the
    node and edge click callbacks. *)
Theorem user_onClick_dropped_by_old_container {Rec : Type} (JSON_parse : string -> Rec)
    (cbs : FlowCallbacks) (domProps : list (string * HandlerRef)) (h : HandlerRef)
    (ev : MouseEvent) (Hclick : prop_lookup "onClick" domProps = Some h) :
  wrapper_click JSON_parse (wrapper_div_old cbs domProps) ev
    = Some (map FlowEffect (eventHandlersDecorator_old JSON_parse (onNodeClick cbs) (onEdgeClick cbs) ev)) /\
  wrapper_click JSON_parse (wrapper_div_new cbs domProps) ev
    = Some (DomCall h :: map FlowEffect (eventHandlersDecorator JSON_parse (onNodeClick cbs) (onEdgeClick cbs) ev)).
Proof.
  split.
  - unfold wrapper_click, wrapper_div_old, jsx_prop. rewrite fold_left_app. reflexivity.
  - unfold wrapper_click, wrapper_div_new, jsx_prop. rewrite Hclick, fold_left_app. reflexivity.
Qed.

(** Whatever [style] the user gives, the wrapper [div] has width and
    height 100%, overflow hidden, position relative and zIndex 0. Every
    other entry of the user's style is kept. *)
Theorem wrapper_style_fixed_entries (style : option (gmap string CSSValue)) (k : string) :
  wrapper_div_style style !! "width" = Some (CssString "100%") /\
  wrapper_div_style style !! "height" = Some (CssString "100%") /\
  wrapper_div_style style !! "overflow" = Some (CssString "hidden") /\
  wrapper_div_style style !! "position" = Some (CssString "relative") /\
  wrapper_div_style style !! "zIndex" = Some (CssNumber 0) /\
  (k ∉ ["width"; "height"; "overflow"; "position"; "zIndex"] ->
   wrapper_div_style style !! k = default ∅ style !! k).
Proof.
  unfold wrapper_div_style.
  split; [apply lookup_union_Some_l; reflexivity|].
  split; [apply lookup_union_Some_l; reflexivity|].
  split; [apply lookup_union_Some_l; reflexivity|].
  split; [apply lookup_union_Some_l; reflexivity|].
  split; [apply lookup_union_Some_l; reflexivity|].
  intros Hk. apply lookup_union_r. unfold wrapperStyle.
  apply not_elem_of_list_to_map_1. simpl. exact Hk.
Qed.

Lemma zoom_within_bounds_for_valid_range_witness :
  gv_minZoom (fst (ReactFlow outOfRangeViewportProps))
    <= gv_maxZoom (fst (ReactFlow outOfRangeViewportProps)) /\
  vp_zoom (initViewport (fst (ReactFlow outOfRangeViewportProps))) == 2 /\
  zoom_in_bounds (fst (ReactFlow outOfRangeViewportProps))
    (initViewport (fst (ReactFlow outOfRangeViewportProps))) /\
  List.Forall (zoom_in_bounds (fst (ReactFlow outOfRangeViewportProps)))
    (viewportTrace (fst (ReactFlow outOfRangeViewportProps))
       (initViewport (fst (ReactFlow outOfRangeViewportProps)))
       [ZoomBy (1 # 10); AnimationFrame {| vp_x := 0; vp_y := 0; vp_zoom := 100 |} (1 # 3);
        PanBy 5 5; FitView 800 600 {| bx1 := 0; by1 := 0; bx2 := 400; by2 := 40 |} 0 (1 # 2) 2]).
Proof.
  assert (H : gv_minZoom (fst (ReactFlow outOfRangeViewportProps))
                <= gv_maxZoom (fst (ReactFlow outOfRangeViewportProps)))
    by (vm_compute; discriminate).
  split; [exact H|]. split; [reflexivity|].
  destruct (zoom_within_bounds_for_valid_range outOfRangeViewportProps H
              [ZoomBy (1 # 10); AnimationFrame {| vp_x := 0; vp_y := 0; vp_zoom := 100 |} (1 # 3);
               PanBy 5 5; FitView 800 600 {| bx1 := 0; by1 := 0; bx2 := 400; by2 := 40 |} 0 (1 # 2) 2])
    as (H1 & H2 & _).
  split; [exact H1 | exact H2].
Defined.

Lemma findNodeOrEdge_first_annotated_examined_witness :
  findNodeOrEdge [outer_node_div; wrapper_div] outer_node_div = Some outer_node_div /\
  match findNodeOrEdge [outer_node_div; wrapper_div] outer_node_div with
  | Some e => exists before after,
      searched_chain [outer_node_div; wrapper_div] outer_node_div = before ++ e :: after /\
      truthy (eltype e) = true /\ List.Forall (fun x => truthy (eltype x) = false) before
  | None => List.Forall (fun x => truthy (eltype x) = false)
              (searched_chain [outer_node_div; wrapper_div] outer_node_div)
  end.
Proof.
  split; [reflexivity|].
  exact (findNodeOrEdge_first_annotated_examined [outer_node_div; wrapper_div] outer_node_div).
Defined.

Lemma click_inside_rendered_node_calls_onNodeClick_witness :
  exists div,
    NodeWrapper unit "rf__node-desc" (fun _ _ => Some "child") sample_node_props false (fun _ => None)
      = Some div /\
    eventHandlersDecorator (Rec:=string) (fun s => s) (Some 10%nat) None
      {| target := [label_div] ++ rendered_element 6 div :: [pane_div; wrapper_div];
         currentTarget := wrapper_div |}
    = [CallNodeHandler 10%nat "child"].
Proof.
  eexists. split; [reflexivity|].
  apply (click_inside_rendered_node_calls_onNodeClick (fun s => s) "rf__node-desc"
           (fun _ _ => Some "child") sample_node_props false (fun _ => None) _ 6%nat
           [label_div] [pane_div; wrapper_div] wrapper_div 10%nat None);
    reflexivity.
Defined.

Lemma old_container_leave_enter_within_node_witness :
  callbacks (pointer_move_old (fun s => s) all_hover_props wrapper_div
               (node_a_div :: [pane_div; wrapper_div])
               (label_div :: node_a_div :: [pane_div; wrapper_div]))
    = [CallNodeHandler 3%nat "a"; CallNodeHandler 1%nat "a"].
Proof.
  apply (old_container_leave_enter_within_node (fun s => s) all_hover_props wrapper_div
           node_a_div label_div [pane_div; wrapper_div] "a" 3%nat 1%nat);
    reflexivity.
Defined.

Lemma hover_state_never_cleared_witness :
  is_defined (hov_el (currentHovered
    (snd (run_mouseovers (Rec:=string) (fun s => s) (fun s => s) all_hover_props
            (mount all_hover_props) [over_node_a])))) = true /\
  is_defined (hov_el (currentHovered
    (snd (run_mouseovers (Rec:=string) (fun s => s) (fun s => s) all_hover_props
            (mount all_hover_props) ([over_node_a] ++ [over_pane]))))) = true.
Proof.
  split; [vm_compute; reflexivity|].
  apply hover_state_never_cleared. vm_compute. reflexivity.
Defined.

Lemma hover_enter_on_every_node_mouseover_witness :
  exists leave,
    hoverHandler (fun s => s) (fun s => s) closure_after_hovering_a over_node_a
      = (leave ++ [CallNodeHandler 1%nat "a"],
         Some {| hov_elType := Some "node"; hov_el := Some "a" |}) /\
    (length leave <= 1)%nat /\
    (forall prev, hov_el (captured closure_after_hovering_a) = Some prev ->
       hov_elType (captured closure_after_hovering_a) = Some "node" ->
       prev = "a" -> leave = []) /\
    (hov_el (captured closure_after_hovering_a) = None -> leave = []).
Proof.
  apply (hover_enter_on_every_node_mouseover (fun s => s) (fun s => s)
           closure_after_hovering_a over_node_a node_a_div "a" 1%nat);
    reflexivity.
Defined.

Lemma hover_leave_to_unannotated_witness :
  hoverHandler (fun s => s) (fun s => s) closure_after_hovering_a over_pane
    = ([CallNodeHandler 3%nat "a"], Some noHovered).
Proof.
  apply (hover_leave_to_unannotated (fun s => s) (fun s => s)
           closure_after_hovering_a over_pane "a"); reflexivity.
Defined.

Lemma hover_node_leave_called_with_edge_witness :
  hoverHandler (fun s => s) (fun s => s) closure_after_hovering_edge over_node_a
    = ([CallNodeHandler 3%nat "e1"; CallNodeHandler 1%nat "a"],
       Some {| hov_elType := Some "node"; hov_el := Some "a" |}).
Proof.
  apply (hover_node_leave_called_with_edge (fun s => s) (fun s => s)
           closure_after_hovering_edge over_node_a node_a_div "a" "e1" 1%nat 3%nat);
    reflexivity.
Defined.

Lemma keyboard_a11y_disabled_keeps_selection_keys_witness :
  onKeyDown unit ["Enter"; " "; "Escape"] (sample_node "default" false true) arrow_up_event = [] /\
  onKeyDown unit ["Enter"; " "; "Escape"] (sample_node "default" false true)
    {| key := "Escape"; shiftKey := false; inInputDOMNode := false |}
    = [HandleNodeClick "n1" true].
Proof.
  split.
  - apply (keyboard_a11y_disabled_keeps_selection_keys ["Enter"; " "; "Escape"]
             (sample_node "default" false true) arrow_up_event); reflexivity.
  - apply (keyboard_a11y_disabled_keeps_selection_keys ["Enter"; " "; "Escape"]
             (sample_node "default" false true)); reflexivity.
Defined.

Lemma forced_dimension_updates_follow_changes_witness :
  nodeLifecycle (sample_node "default" false false)
    [sample_node "default" false false; sample_node "group" false false]
  = [None; None; Some "n1"].
Proof.
  apply (forced_dimension_updates_follow_changes (sample_node "default" false false)
           [sample_node "default" false false; sample_node "group" false false]).
  reflexivity.
Defined.

Lemma change_while_hidden_never_forced_witness :
  nodeLifecycle (sample_node "default" false false)
    [sample_node "group" true false; sample_node "group" false false]
  = [None; None; None].
Proof.
  apply (change_while_hidden_never_forced (sample_node "default" false false)
           (sample_node "group" true false) (sample_node "group" false false));
    reflexivity.
Defined.

Lemma user_onClick_dropped_by_old_container_witness :
  prop_lookup "onClick" [("onClick", 7%nat)] = Some 7%nat /\
  wrapper_click (Rec:=string) (fun s => s) (wrapper_div_new sample_callbacks [("onClick", 7%nat)])
    over_node_a
    = Some (DomCall 7%nat :: map FlowEffect
              (eventHandlersDecorator (fun s => s) (Some 10%nat) (Some 11%nat) over_node_a)).
Proof.
  split; [reflexivity|].
  apply (user_onClick_dropped_by_old_container (fun s => s) sample_callbacks
           [("onClick", 7%nat)] 7%nat over_node_a); reflexivity.
Defined.
